(** * The heuristic ordering agent of forex_minute

    A shallow embedding of [forex_minute/agent/heuristic/agent.py]: the
    class [Agent], its bounded histories, its demand estimate and its
    base-stock order rule.

    Numbers.  Python's [float] values are modelled by the real numbers of
    the Standard Library: every operation is the exact one and the rounding
    of IEEE arithmetic (including the cast of an observation entry to
    [np.float32] and back) is not part of the model.  Decimal constants of
    the source are written as fractions ([0.7] is [7/10]).

    Effects.  A method of [Agent] reads and mutates [self] and may raise:
    it is a function from the state of the instance to an outcome and the
    state the call leaves behind. *)

From Stdlib Require Import Reals Lra Lia List String Bool Arith ZArith.
Import ListNotations.

Open Scope R_scope.

(** ** Python values and built-ins used by the agent *)

Module Py.

Inductive exn : Type :=
| TypeError
| KeyError (key : string)
| IndexError
| ValueError.

Inductive outcome (A : Type) : Type :=
| Returned (v : A)
| Raised (e : exn).

Arguments Returned {A} v.
Arguments Raised {A} e.

(** [max(a, b)]: the first argument is kept unless a later one is greater. *)
Definition max (a b : R) : R := if Rlt_dec a b then b else a.

(** [min(a, b)]: the first argument is kept unless a later one is smaller. *)
Definition min (a b : R) : R := if Rlt_dec b a then b else a.

(** [sum(xs)]: starts from 0 and adds from the left. *)
Definition sum (xs : list R) : R := fold_left Rplus xs 0.

(** [collections.deque(maxlen=n)]. *)
Record deque : Type := mk_deque { maxlen : nat; items : list R }.

Definition deque_new (n : nat) : deque := mk_deque n [].

(** [d.append(x)]: the value goes to the right end, and once the deque is
    longer than [maxlen] the leftmost value is dropped. *)
Definition deque_append (d : deque) (x : R) : deque :=
  let l := (items d ++ [x])%list in
  mk_deque (maxlen d) (if (maxlen d <? List.length l)%nat then tl l else l).

Definition len (d : deque) : nat := List.length (items d).

(** [xs[0]] *)
Definition item0 (xs : list R) : outcome R :=
  match xs with
  | x :: _ => Returned x
  | [] => Raised IndexError
  end.

(** A [dict] with string keys, in insertion order. *)
Definition dict : Type := list (string * list R).

Fixpoint getitem (d : dict) (k : string) : outcome (list R) :=
  match d with
  | [] => Raised (KeyError k)
  | (k', v) :: d' => if String.eqb k' k then Returned v else getitem d' k
  end.

(** [xs.index(x)] *)
Fixpoint index (xs : list string) (x : string) : outcome nat :=
  match xs with
  | [] => Raised ValueError
  | y :: ys =>
      if String.eqb y x then Returned O
      else match index ys x with
           | Returned n => Returned (S n)
           | Raised e => Raised e
           end
  end.

End Py.

Import Py.

(** ** numpy *)

Module Np.

(** [np.mean(xs)] *)
Definition mean (xs : list R) : R := Py.sum xs / INR (List.length xs).

(** [np.std(xs)] with its default [ddof=0]:
    [sqrt(mean(abs(x - x.mean())**2))]. *)
Definition std (xs : list R) : R :=
  sqrt (mean (map (fun x => Rabs (x - mean xs) * Rabs (x - mean xs)) xs)).

End Np.

(** ** The collaborators of the agent *)

(** The environment, as far as [Agent.__init__] uses it. *)
Record Env : Type := mk_Env {
  agents : list string;
  possible_agents : list string;
  (** [env.action_space(name).high[0]] *)
  action_space_high : string -> R
}.

(** The [observation] argument of [choose_action]: a flat array of numbers
    of any length, or a value that cannot be iterated at all ([None], a
    scalar). *)
Inductive pyobs : Type :=
| NotIterable
| FlatArray (xs : list R).

(** The arguments [info] and [action_mask]. *)
Definition pyinfo : Type := option (list (string * R)).
Definition pymask : Type := option (list bool).

(** ** The class [Agent] *)

Record Agent : Type := mk_Agent {
  position : nat;
  action_high : R;              (* self.action_space.high[0] *)
  safety_stock_factor : R;
  target_inventory_days : R;
  smoothing_factor : R;
  lead_time : R;
  demand_history : deque;
  last_orders : deque;
  avg_demand : option R
}.

Definition set_demand_history (a : Agent) (d : deque) : Agent :=
  mk_Agent (position a) (action_high a) (safety_stock_factor a)
    (target_inventory_days a) (smoothing_factor a) (lead_time a)
    d (last_orders a) (avg_demand a).

Definition set_last_orders (a : Agent) (d : deque) : Agent :=
  mk_Agent (position a) (action_high a) (safety_stock_factor a)
    (target_inventory_days a) (smoothing_factor a) (lead_time a)
    (demand_history a) d (avg_demand a).

Definition set_avg_demand (a : Agent) (v : option R) : Agent :=
  mk_Agent (position a) (action_high a) (safety_stock_factor a)
    (target_inventory_days a) (smoothing_factor a) (lead_time a)
    (demand_history a) (last_orders a) v.

Definition set_action_high (a : Agent) (c : R) : Agent :=
  mk_Agent (position a) c (safety_stock_factor a)
    (target_inventory_days a) (smoothing_factor a) (lead_time a)
    (demand_history a) (last_orders a) (avg_demand a).

(** A method body: it runs on the state of [self]. *)
Definition M (A : Type) : Type := Agent -> outcome A * Agent.

Definition ret {A : Type} (v : A) : M A := fun a => (Returned v, a).

Definition bind {A B : Type} (m : M A) (k : A -> M B) : M B :=
  fun a =>
    match m a with
    | (Returned v, a') => k v a'
    | (Raised e, a') => (Raised e, a')
    end.

Definition lift {A : Type} (o : outcome A) : M A := fun a => (o, a).

Definition get : M Agent := fun a => (Returned a, a).

Definition put (a' : Agent) : M unit := fun _ => (Returned tt, a').

Notation "x <- m ;; k" := (bind m (fun x => k))
  (at level 61, m at next level, right associativity).
Notation "m ;;; k" := (bind m (fun _ => k))
  (at level 61, right associativity).

(** [self.obs_keys] *)
Definition obs_keys : list string :=
  ["inventory"; "backorders"; "orders"; "incoming_shipments";
   "holding_cost"; "backorder_cost"]%string.

(** [_array_to_dict_obs]: [zip] stops at the shorter of the key list and the
    array; each value becomes a one-element array (its cast to [np.float32]
    leaves a real number as it is). *)
Definition _array_to_dict_obs (obs_array : pyobs) : outcome dict :=
  match obs_array with
  | NotIterable => Raised TypeError
  | FlatArray xs =>
      Returned (map (fun kv => (fst kv, [snd kv])) (combine obs_keys xs))
  end.

(** [_estimate_lead_time] *)
Definition _estimate_lead_time (position : nat) : R :=
  let base_lead_time := 2 in
  let position_factor := INR position * (3 / 2) in
  base_lead_time + position_factor.

(** [__init__] *)
Definition __init__ (env : Env) (player_name : option string) : outcome Agent :=
  let name :=
    match player_name with
    | Some n => if (String.length n =? 0)%nat then None else Some n
    | None => None
    end in
  let name :=
    match name with
    | Some n => Returned n
    | None => match agents env with
              | n :: _ => Returned n
              | [] => Raised IndexError
              end
    end in
  match name with
  | Raised e => Raised e
  | Returned n =>
      match Py.index (possible_agents env) n with
      | Raised e => Raised e
      | Returned pos =>
          Returned (mk_Agent pos (action_space_high env n)
                      (3 / 2) 14 (3 / 10) (_estimate_lead_time pos)
                      (deque_new 8) (deque_new 4) None)
      end
  end.

(** [_calculate_safety_stock] *)
Definition _calculate_safety_stock (a : Agent) (demand_std : R) : R :=
  let service_level_z := 196 / 100 in
  service_level_z * demand_std * sqrt (lead_time a).

(** [_estimate_demand] *)
Definition _estimate_demand (observation : dict) : M R :=
  arr <- lift (getitem observation "orders") ;;
  current_demand <- lift (item0 arr) ;;
  a <- get ;;
  put (set_demand_history a (deque_append (demand_history a) current_demand)) ;;;
  a <- get ;;
  match avg_demand a with
  | None =>
      put (set_avg_demand a (Some current_demand)) ;;;
      ret current_demand
  | Some avg =>
      let v := smoothing_factor a * current_demand
               + (1 - smoothing_factor a) * avg in
      put (set_avg_demand a (Some v)) ;;;
      ret v
  end.

(** [_calculate_order_quantity] is embedded block by block, one definition
    for each commented block of the source; all of them read the state that
    [_estimate_demand] leaves. *)

(** "Estimate demand and variability": the variability estimate. *)
Definition demand_std (a : Agent) (expected_demand : R) : R :=
  if (1 <? len (demand_history a))%nat
  then Np.std (items (demand_history a))
  else expected_demand * (2 / 10).

(** "Calculate components" *)
Definition target_stock (a : Agent) (expected_demand demand_std : R) : R :=
  let safety_stock := _calculate_safety_stock a demand_std in
  let pipeline_stock := expected_demand * lead_time a in
  safety_stock + pipeline_stock.

(** "Calculate net inventory position" *)
Definition inventory_position (a : Agent)
    (current_inventory backorders incoming_shipments : R) : R :=
  current_inventory - backorders + incoming_shipments
  + Py.sum (items (last_orders a)).

(** "Calculate base order quantity" *)
Definition base_order_quantity
    (expected_demand target_stock inventory_position : R) : R :=
  Py.max 0 (expected_demand + (target_stock - inventory_position)).

(** "Apply smoothing to avoid bullwhip effect" *)
Definition smooth_bullwhip (a : Agent) (order_quantity : R) : R :=
  match items (last_orders a) with
  | [] => order_quantity
  | _ :: _ =>
      let last_order := last (items (last_orders a)) 0 in
      7 / 10 * order_quantity + 3 / 10 * last_order
  end.

(** "Adjust based on position in supply chain" *)
Definition adjust_position (a : Agent) (order_quantity : R) : R :=
  if (0 <? position a)%nat
  then order_quantity * (1 + 1 / 10 * INR (position a))
  else order_quantity.

(** "Ensure order is within action space bounds" *)
Definition bound_action (a : Agent) (order_quantity : R) : R :=
  Py.min (Py.max order_quantity 0) (action_high a).

(** [_calculate_order_quantity] *)
Definition _calculate_order_quantity (observation : dict) : M R :=
  arr <- lift (getitem observation "inventory") ;;
  current_inventory <- lift (item0 arr) ;;
  arr <- lift (getitem observation "backorders") ;;
  backorders <- lift (item0 arr) ;;
  arr <- lift (getitem observation "incoming_shipments") ;;
  incoming_shipments <- lift (item0 arr) ;;
  expected_demand <- _estimate_demand observation ;;
  a <- get ;;
  let demand_std := demand_std a expected_demand in
  let target_stock := target_stock a expected_demand demand_std in
  let inventory_position :=
    inventory_position a current_inventory backorders incoming_shipments in
  let order_quantity :=
    base_order_quantity expected_demand target_stock inventory_position in
  let order_quantity := smooth_bullwhip a order_quantity in
  let order_quantity := adjust_position a order_quantity in
  let order_quantity := bound_action a order_quantity in
  ret order_quantity.

(** [choose_action] *)
Definition choose_action (observation : pyobs) (reward : R)
    (terminated truncated : bool) (info : pyinfo) (action_mask : pymask)
    : M R :=
  if terminated || truncated then ret 0
  else
    obs_dict <- lift (_array_to_dict_obs observation) ;;
    order_quantity <- _calculate_order_quantity obs_dict ;;
    a <- get ;;
    put (set_last_orders a (deque_append (last_orders a) order_quantity)) ;;;
    ret order_quantity.

(** ** Sequences of calls *)

Record call : Type := mk_call {
  c_observation : pyobs;
  c_reward : R;
  c_terminated : bool;
  c_truncated : bool;
  c_info : pyinfo;
  c_action_mask : pymask
}.

Definition step (c : call) : M R :=
  choose_action (c_observation c) (c_reward c) (c_terminated c)
    (c_truncated c) (c_info c) (c_action_mask c).

(** The state after a sequence of calls; a call that raises leaves the
    state it had reached and the caller goes on. *)
Fixpoint run (a : Agent) (cs : list call) : Agent :=
  match cs with
  | [] => a
  | c :: cs' => run (snd (step c a)) cs'
  end.

(** A well-formed observation: the six fields in the order of [obs_keys]. *)
Definition obs6 (inventory backorders orders incoming_shipments
                 holding_cost backorder_cost : R) : pyobs :=
  FlatArray [inventory; backorders; orders; incoming_shipments;
             holding_cost; backorder_cost].

(** ** The steps of the decision, as the specification words them *)

Module Spec.

(** Exponential smoothing of the demand estimate. *)
Definition smoothedDemand (alpha : R) (previous : option R) (demand : R) : R :=
  match previous with
  | Some s => alpha * demand + (1 - alpha) * s
  | None => demand
  end.

Definition total (xs : list R) : R := fold_right Rplus 0 xs.

Definition average (xs : list R) : R := total xs / INR (List.length xs).

Definition squared_deviations (xs : list R) : R :=
  total (map (fun x => (x - average xs) * (x - average xs)) xs).

(** The sample standard deviation: the squared deviations from the mean
    are divided by [n - 1]. *)
Definition sample_std (xs : list R) : R :=
  sqrt (squared_deviations xs / (INR (List.length xs) - 1)).

(** The population standard deviation: they are divided by [n]. *)
Definition population_std (xs : list R) : R :=
  sqrt (squared_deviations xs / INR (List.length xs)).

Definition safetyStock (demandStd leadTime : R) : R :=
  196 / 100 * demandStd * sqrt leadTime.

Definition targetStock (demandStd smoothed leadTime : R) : R :=
  safetyStock demandStd leadTime + smoothed * leadTime.

Definition inventoryPosition (inventory backorders incomingShipments : R)
    (lastOrders : list R) : R :=
  inventory - backorders + incomingShipments + total lastOrders.

Definition rawOrder (smoothed target inventoryPos : R) : R :=
  Rmax 0 (smoothed + (target - inventoryPos)).

(** Bullwhip smoothing against the most recent order. *)
Definition blend (raw : R) (lastOrders : list R) : R :=
  match rev lastOrders with
  | [] => raw
  | recent :: _ => 7 / 10 * raw + 3 / 10 * recent
  end.

(** Upstream amplification. *)
Definition amplify (position : nat) (q : R) : R :=
  match position with
  | O => q
  | S _ => q * (1 + 1 / 10 * INR position)
  end.

(** The bound to [[0, orderCeiling]]. *)
Definition clamp (orderCeiling q : R) : R := Rmin (Rmax q 0) orderCeiling.

End Spec.

(** ** Closed forms of the methods *)

(** The state that [_estimate_demand] leaves for the demand [d]. *)
Definition estimated (a : Agent) (d : R) : Agent :=
  set_avg_demand
    (set_demand_history a (deque_append (demand_history a) d))
    (Some (Spec.smoothedDemand (smoothing_factor a) (avg_demand a) d)).

(** The base order quantity that [_calculate_order_quantity] computes from
    the fields it reads, before smoothing, adjustment and bound. *)
Definition raw_order_for (a : Agent) (inv bo ord inc : R) : R :=
  let a1 := estimated a ord in
  let e := Spec.smoothedDemand (smoothing_factor a) (avg_demand a) ord in
  base_order_quantity e (target_stock a1 e (demand_std a1 e))
    (inventory_position a1 inv bo inc).

(** The order that it returns. *)
Definition order_for (a : Agent) (inv bo ord inc : R) : R :=
  let a1 := estimated a ord in
  bound_action a1 (adjust_position a1 (smooth_bullwhip a1
    (raw_order_for a inv bo ord inc))).

(** The state that a non-terminal [choose_action] leaves. *)
Definition decided (a : Agent) (inv bo ord inc : R) : Agent :=
  let a1 := estimated a ord in
  set_last_orders a1 (deque_append (last_orders a1) (order_for a inv bo ord inc)).

(** ** Definitions for the statements *)

(** A non-terminal call on a well-formed observation. *)
Definition observe (inv bo ord inc hc bc : R) : call :=
  mk_call (obs6 inv bo ord inc hc bc) 0 false false None None.

(** The calls of a sequence that end the episode. *)
Definition terminal (c : call) : bool := c_terminated c || c_truncated c.

(** The invariant of the two histories. *)
Definition histories_bounded (a : Agent) : Prop :=
  maxlen (demand_history a) = 8%nat /\ maxlen (last_orders a) = 4%nat
  /\ (len (demand_history a) <= 8)%nat /\ (len (last_orders a) <= 4)%nat.

(** The configuration of an instance is never written after [__init__]. *)
Definition same_config (a b : Agent) : Prop :=
  position b = position a /\ action_high b = action_high a
  /\ smoothing_factor b = smoothing_factor a /\ lead_time b = lead_time a.

(** The variability estimate as the specification states it, for the
    decision taken in state [a] on the demand [ord]: the sample standard
    deviation of the history once it holds two values. *)
Definition std_as_stated (a : Agent) (ord : R) : Prop :=
  let a1 := estimated a ord in
  let s := Spec.smoothedDemand (smoothing_factor a) (avg_demand a) ord in
  demand_std a1 s
  = if (2 <=? len (demand_history a1))%nat
    then Spec.sample_std (items (demand_history a1))
    else 2 / 10 * s.

(** A supply chain to run the agent in. *)

Definition chain_env : Env :=
  mk_Env ["retailer"; "wholesaler"; "distributor"; "factory"]%string
         ["retailer"; "wholesaler"; "distributor"; "factory"]%string
         (fun _ => 100).

(** The new instance at position 0 of [chain_env]. *)
Definition retailer : Agent :=
  mk_Agent 0 100 (3 / 2) 14 (3 / 10) (_estimate_lead_time 0)
    (deque_new 8) (deque_new 4) None.

(** The new instance at position 3 of [chain_env]. *)
Definition factory : Agent :=
  mk_Agent 3 100 (3 / 2) 14 (3 / 10) (_estimate_lead_time 3)
    (deque_new 8) (deque_new 4) None.

(** ** Definitions for the further properties *)

(** The player an instance is created for: [player_name], unless it is
    [None] or the empty string, and then the first of [env.agents]. *)
Definition player_of (env : Env) (player_name : option string)
    : option string :=
  match player_name with
  | Some n => if String.eqb n "" then hd_error (agents env) else Some n
  | None => hd_error (agents env)
  end.

(** The last [k] values of a list. *)
Definition lastn {A : Type} (k : nat) (xs : list A) : list A :=
  skipn (List.length xs - k) xs.

(** The demand that a call hands to the agent: the [orders] entry of a
    non-terminal call on an array of at least four entries. *)
Definition demand_of (c : call) : option R :=
  if terminal c then None
  else match c_observation c with
       | FlatArray (_ :: _ :: ord :: _ :: _) => Some ord
       | _ => None
       end.

(** The demands of a sequence of calls, in order. *)
Fixpoint demands (cs : list call) : list R :=
  match cs with
  | [] => []
  | c :: cs' =>
      match demand_of c with
      | Some d => d :: demands cs'
      | None => demands cs'
      end
  end.

(** The orders that the non-terminal calls of a sequence return, in
    order. *)
Fixpoint orders_placed (a : Agent) (cs : list call) : list R :=
  match cs with
  | [] => []
  | c :: cs' =>
      match demand_of c, fst (step c a) with
      | Some _, Returned q => q :: orders_placed (snd (step c a)) cs'
      | _, _ => orders_placed (snd (step c a)) cs'
      end
  end.


(** An assignment to the two attributes [safety_stock_factor] and
    [target_inventory_days]. *)
Definition set_tunables (a : Agent) (ssf tid : R) : Agent :=
  mk_Agent (position a) (action_high a) ssf tid (smoothing_factor a)
    (lead_time a) (demand_history a) (last_orders a) (avg_demand a).

(** ** The trading environment [ForexMinuteEnv]

    [forex_minute/env/forex_minute.py].  A timestamp is modelled by the
    integer that orders it (its seconds), a price by a real number.  The
    branch of [__init__] that draws random sample prices when no data is
    given is not modelled: the data is a non-empty list of rows.  Drawing
    ([render] with a renderer) reads the state and does not write it; the
    model covers the state that [render] prepares and the profit that the
    renderer computes from it. *)

Module ForexMinuteEnv.

(** [initial_info], and the dictionary that [_get_info] returns at the end
    of an episode: a timestamp (or the index it was resolved to), a
    position type and a position value. *)
Record info (T : Type) : Type := mk_info {
  i_time : T;
  i_position_type : Z;
  i_position_value : R
}.

Arguments mk_info {T} _ _ _.
Arguments i_time {T} _.
Arguments i_position_type {T} _.
Arguments i_position_value {T} _.

(** The instance: what [__init__] sets, and what [reset] and [step] set. *)
Record env : Type := mk_env {
  closes : list R;
  timestamps : list Z;
  tmax : nat;
  initial_info : info nat;      (* initial_t, position_type, position_value *)
  history_length : Z;
  t : nat;
  position_type : Z;
  position_value : R
}.

Definition set_t (e : env) (v : nat) : env :=
  mk_env (closes e) (timestamps e) (tmax e) (initial_info e)
    (history_length e) v (position_type e) (position_value e).

Definition set_position_type (e : env) (v : Z) : env :=
  mk_env (closes e) (timestamps e) (tmax e) (initial_info e)
    (history_length e) (t e) v (position_value e).

Definition set_position_value (e : env) (v : R) : env :=
  mk_env (closes e) (timestamps e) (tmax e) (initial_info e)
    (history_length e) (t e) (position_type e) v.

(** A method body on the state of the environment. *)
Definition ME (A : Type) : Type := env -> outcome A * env.

Definition retE {A : Type} (v : A) : ME A := fun e => (Returned v, e).

Definition bindE {A B : Type} (m : ME A) (k : A -> ME B) : ME B :=
  fun e =>
    match m e with
    | (Returned v, e') => k v e'
    | (Raised x, e') => (Raised x, e')
    end.

Definition getE : ME env := fun e => (Returned e, e).

Definition putE (e' : env) : ME unit := fun _ => (Returned tt, e').

Notation "x <~ m ;; k" := (bindE m (fun x => k))
  (at level 61, m at next level, right associativity).
Notation "m ~;; k" := (bindE m (fun _ => k))
  (at level 61, right associativity).

(** [xs[i]] for an index that is not negative. *)
Definition list_item {A : Type} (xs : list A) (i : nat) : outcome A :=
  match nth_error xs i with
  | Some x => Returned x
  | None => Raised IndexError
  end.

(** [self.closes[self.t]] *)
Definition close_at_t : ME R := fun e => (list_item (closes e) (t e), e).

(** The loop of [_process_initial_info]: [rest] is what is left of
    [self.timestamps] from [initial_t] on. *)
Fixpoint advance (rest : list Z) (initial_timestamp : Z) (initial_t : nat)
    : nat :=
  match rest with
  | [] => initial_t
  | stamp :: rest' =>
      if (stamp <? initial_timestamp)%Z
      then advance rest' initial_timestamp (S initial_t)
      else initial_t
  end.

(** [_process_initial_info] *)
Definition _process_initial_info (timestamps : list Z) (initial : info Z)
    : info nat :=
  let initial_t := advance timestamps (i_time initial) 0 in
  mk_info initial_t (i_position_type initial) (i_position_value initial).

(** [__init__] on data that is not empty, up to the spaces and the
    renderer.  The attributes [t], [position_type] and [position_value]
    exist only once [reset] has set them; the record holds the values that
    [reset] sets from the start, and a [step] before the first [reset] is
    outside the model. *)
Definition __init__ (data : list (Z * R)) (initial : option (info Z))
    (history_length : Z) : env :=
  let closes := map snd data in
  let timestamps := map fst data in
  let tmax := List.length closes in
  let initial_info :=
    match initial with
    | Some i => _process_initial_info timestamps i
    | None => mk_info (Nat.min 120 (tmax - 1)) 1%Z 0
    end in
  mk_env closes timestamps tmax initial_info history_length
    (i_time initial_info) (i_position_type initial_info)
    (i_position_value initial_info).

(** [_get_info] *)
Definition _get_info (done : bool) : ME (option (info Z)) :=
  if done then
    e <~ getE ;;
    fun e' =>
      match list_item (timestamps e) (t e) with
      | Returned stamp =>
          (Returned (Some (mk_info stamp (position_type e)
                             (position_value e))), e')
      | Raised x => (Raised x, e')
      end
  else retE None.

(** [reset] *)
Definition reset : ME (list R * option (info Z)) :=
  e <~ getE ;;
  putE (set_t e (i_time (initial_info e))) ~;;
  e <~ getE ;;
  putE (set_position_type e (i_position_type (initial_info e))) ~;;
  e <~ getE ;;
  putE (set_position_value e (i_position_value (initial_info e))) ~;;
  e <~ getE ;;
  price <~ close_at_t ;;
  let observation := [IZR (position_type e); position_value e; price] in
  info <~ _get_info false ;;
  retE (observation, info).

(** [_calculate_reward] *)
Definition _calculate_reward (action : Z) : ME R :=
  let reward := 0 in
  e <~ getE ;;
  if (action =? 0)%Z then
    if (position_type e =? 1)%Z then
      putE (set_position_type e 0) ~;;
      e <~ getE ;;
      price <~ close_at_t ;;
      putE (set_position_value e price) ~;;
      retE reward
    else if (position_type e =? 2)%Z then
      price <~ close_at_t ;;
      let reward := price - position_value e in
      putE (set_position_type e 0) ~;;
      e <~ getE ;;
      price <~ close_at_t ;;
      putE (set_position_value e price) ~;;
      retE reward
    else retE reward
  else if (action =? 1)%Z then
    if (position_type e =? 0)%Z then
      price <~ close_at_t ;;
      let reward := position_value e - price in
      putE (set_position_type e 1) ~;;
      e <~ getE ;;
      putE (set_position_value e 0) ~;;
      retE reward
    else if (position_type e =? 2)%Z then
      price <~ close_at_t ;;
      let reward := price - position_value e in
      putE (set_position_type e 1) ~;;
      e <~ getE ;;
      putE (set_position_value e 0) ~;;
      retE reward
    else retE reward
  else if (action =? 2)%Z then
    if (position_type e =? 1)%Z then
      putE (set_position_type e 2) ~;;
      e <~ getE ;;
      price <~ close_at_t ;;
      putE (set_position_value e price) ~;;
      retE reward
    else if (position_type e =? 0)%Z then
      price <~ close_at_t ;;
      let reward := position_value e - price in
      putE (set_position_type e 2) ~;;
      e <~ getE ;;
      price <~ close_at_t ;;
      putE (set_position_value e price) ~;;
      retE reward
    else retE reward
  else retE reward.

(** What [step] returns: observation, reward, terminated, truncated,
    info. *)
Record step_result : Type := mk_step_result {
  observation : list R;
  reward : R;
  done : bool;
  truncated : bool;
  step_info : option (info Z)
}.

(** [step], without a renderer. *)
Definition step (action : Z) : ME step_result :=
  reward <~ _calculate_reward action ;;
  e <~ getE ;;
  putE (set_t e (t e + 1)) ~;;
  e <~ getE ;;
  let done := (tmax e - 1 <=? t e)%nat in
  price <~ close_at_t ;;
  let observation := [IZR (position_type e); position_value e; price] in
  info <~ _get_info done ;;
  retE (mk_step_result observation reward done false info).

(** A sequence of steps, one action each, up to the first that raises. *)
Fixpoint play (actions : list Z) : ME (list step_result) :=
  match actions with
  | [] => retE []
  | action :: rest =>
      r <~ step action ;;
      rs <~ play rest ;;
      retE (r :: rs)
  end.


(** The state that [render] prepares for the renderer. *)
Record render_state : Type := mk_render_state {
  r_timestamps : list Z;
  r_closes : list R;
  r_position_type : Z;
  r_position_value : R;
  r_current_price : R
}.


End ForexMinuteEnv.

(** [forex_minute/env/renderer.py]: the profit that [_plot_position] writes
    on the plot; there is none without an open position. *)
Module ForexMinuteRenderer.

Definition current_pnl (state : ForexMinuteEnv.render_state) : option R :=
  let position_type := ForexMinuteEnv.r_position_type state in
  let position_value := ForexMinuteEnv.r_position_value state in
  let current_price := ForexMinuteEnv.r_current_price state in
  if negb (position_type =? 1)%Z then
    Some (if (position_type =? 2)%Z then current_price - position_value
          else if (position_type =? 0)%Z then position_value - current_price
          else 0)
  else None.

End ForexMinuteRenderer.

(** The position types: 0 sold, 1 none, 2 bought. *)
Definition is_position_type (z : Z) : bool := ((0 <=? z) && (z <=? 2))%Z.

(** An action trades when it is one of the three actions, the position is
    one of the three positions, and the two differ. *)
Definition trades (e : ForexMinuteEnv.env) (action : Z) : bool :=
  is_position_type action
  && is_position_type (ForexMinuteEnv.position_type e)
  && negb (action =? ForexMinuteEnv.position_type e)%Z.

(** What the renderer is given for the position of [e] at a price. *)
Definition position_at (e : ForexMinuteEnv.env) (price : R)
    : ForexMinuteEnv.render_state :=
  ForexMinuteEnv.mk_render_state [] []
    (ForexMinuteEnv.position_type e) (ForexMinuteEnv.position_value e) price.

(** The environment has as many timestamps as prices, and [tmax] of
    them, as [__init__] makes it. *)
Definition well_formed (e : ForexMinuteEnv.env) : Prop :=
  ForexMinuteEnv.tmax e = List.length (ForexMinuteEnv.closes e)
  /\ List.length (ForexMinuteEnv.timestamps e)
     = List.length (ForexMinuteEnv.closes e).

Section ForexStatements.

Import ForexMinuteEnv.

(** What [_calculate_reward] does with a price for the current time. *)
Definition traded (e : env) (action : Z) (price : R) : env :=
  if trades e action
  then set_position_value (set_position_type e action)
         (if (action =? 1)%Z then 0 else price)
  else e.

Definition reward_for (e : env) (action : Z) (price : R) : R :=
  if trades e action
  then match ForexMinuteRenderer.current_pnl (position_at e price) with
       | Some pnl => pnl
       | None => 0
       end
  else 0.

(** The state that [reset] leaves. *)
Definition started (e : env) : env :=
  set_position_value
    (set_position_type (set_t e (i_time (initial_info e)))
       (i_position_type (initial_info e)))
    (i_position_value (initial_info e)).

(** What no method writes. *)
Definition series (e : env) : list R * list Z * nat * info nat * Z :=
  (closes e, timestamps e, tmax e, initial_info e, history_length e).

(** Five minutes of prices, no position, starting at the first. *)
Definition minutes : env :=
  __init__ [(0%Z, 10); (60%Z, 11); (120%Z, 13); (180%Z, 12); (240%Z, 14)]
    (Some (mk_info 0%Z 1%Z 0)) 100.

End ForexStatements.

(** ** The cases of a call *)

Lemma choose_action_array (a : Agent) (inv bo ord inc : R) (rest : list R)
    (reward : R) (info : pyinfo) (action_mask : pymask) :
  choose_action (FlatArray (inv :: bo :: ord :: inc :: rest))
    reward false false info action_mask a
  = (Returned (order_for a inv bo ord inc), decided a inv bo ord inc).
Proof.
  unfold choose_action, _calculate_order_quantity, _estimate_demand,
    decided, order_for, raw_order_for, estimated.
  destruct a as [p h ssf tid sf lt dh lo [avg|]]; reflexivity.
Qed.

Lemma choose_action_terminal (a : Agent) (obs : pyobs) (reward : R)
    (terminated truncated : bool) (info : pyinfo) (action_mask : pymask) :
  terminated || truncated = true ->
  choose_action obs reward terminated truncated info action_mask a
  = (Returned 0, a).
Proof.
  intros Hflag. unfold choose_action. rewrite Hflag. reflexivity.
Qed.

Lemma choose_action_not_iterable (a : Agent) (reward : R)
    (info : pyinfo) (action_mask : pymask) :
  choose_action NotIterable reward false false info action_mask a
  = (Raised TypeError, a).
Proof. reflexivity. Qed.

Lemma choose_action_short (a : Agent) (xs : list R) (reward : R)
    (info : pyinfo) (action_mask : pymask) :
  (List.length xs < 4)%nat ->
  exists k,
    choose_action (FlatArray xs) reward false false info action_mask a
    = (Raised (KeyError k), a).
Proof.
  intros Hlen.
  destruct xs as [|x0 [|x1 [|x2 [|x3 xs]]]]; simpl in Hlen; try lia.
  - exists "inventory"%string. reflexivity.
  - exists "backorders"%string. reflexivity.
  - exists "incoming_shipments"%string. reflexivity.
  - exists "incoming_shipments"%string. reflexivity.
Qed.

(** Whatever the arguments, a call leaves the state as it was or as the
    decision on the four fields it read leaves it. *)
Lemma choose_action_cases (a : Agent) (obs : pyobs) (reward : R)
    (terminated truncated : bool) (info : pyinfo) (action_mask : pymask) :
  (exists r,
      choose_action obs reward terminated truncated info action_mask a
      = (r, a)
      /\ (r = Returned 0 \/ exists e, r = Raised e))
  \/ (exists inv bo ord inc,
         terminated || truncated = false /\
         choose_action obs reward terminated truncated info action_mask a
         = (Returned (order_for a inv bo ord inc), decided a inv bo ord inc)).
Proof.
  destruct (terminated || truncated) eqn:Hflag.
  - left. exists (Returned 0). split; [|now left].
    now apply choose_action_terminal.
  - apply orb_false_elim in Hflag as [-> ->].
    destruct obs as [|xs].
    + left. exists (Raised TypeError). split; [reflexivity|right; eauto].
    + destruct (Nat.lt_ge_cases (List.length xs) 4) as [Hlt|Hge].
      * left. destruct (choose_action_short a xs reward info action_mask Hlt)
          as [k Hk].
        exists (Raised (KeyError k)). split; [exact Hk|right; eauto].
      * right.
        destruct xs as [|x0 [|x1 [|x2 [|x3 xs]]]]; simpl in Hge; try lia.
        exists x0, x1, x2, x3. split; [reflexivity|].
        apply choose_action_array.
Qed.

(** ** Python's built-ins against the functions of the real numbers *)

Lemma py_max_Rmax (a b : R) : Py.max a b = Rmax a b.
Proof.
  unfold Py.max, Rmax.
  destruct (Rlt_dec a b), (Rle_dec a b); lra.
Qed.

Lemma py_min_Rmin (a b : R) : Py.min a b = Rmin a b.
Proof.
  unfold Py.min, Rmin.
  destruct (Rlt_dec b a), (Rle_dec a b); lra.
Qed.

Lemma fold_left_Rplus_acc (xs : list R) (acc : R) :
  fold_left Rplus xs acc = acc + Spec.total xs.
Proof.
  revert acc. induction xs as [|x xs IH]; intros acc; simpl.
  - lra.
  - rewrite IH. lra.
Qed.

Lemma py_sum_total (xs : list R) : Py.sum xs = Spec.total xs.
Proof. unfold Py.sum. rewrite fold_left_Rplus_acc. lra. Qed.

Lemma bound_action_clamp (a : Agent) (q : R) :
  bound_action a q = Spec.clamp (action_high a) q.
Proof.
  unfold bound_action, Spec.clamp. now rewrite py_min_Rmin, py_max_Rmax.
Qed.

Lemma clamp_range (c q : R) : 0 <= c -> 0 <= Spec.clamp c q <= c.
Proof.
  intros Hc. unfold Spec.clamp. split.
  - apply Rmin_glb; [apply Rmax_r|exact Hc].
  - apply Rmin_r.
Qed.

Lemma clamp_monotone (c1 c2 q : R) :
  c1 <= c2 -> Spec.clamp c1 q <= Spec.clamp c2 q.
Proof.
  intros Hc. unfold Spec.clamp.
  apply Rle_min_compat_l. exact Hc.
Qed.

Lemma init_retailer : __init__ chain_env None = Returned retailer.
Proof. reflexivity. Qed.

Lemma init_factory : __init__ chain_env (Some "factory"%string) = Returned factory.
Proof. reflexivity. Qed.

(** ** The properties of [choose_action] *)

(** In a state whose order ceiling is not negative, a call on a six-field
    observation returns, and whatever a call returns lies between 0 and the
    ceiling. *)
Lemma returned_in_bounds (a : Agent) :
  0 <= action_high a ->
  (forall inv bo ord inc hc bc reward terminated truncated info action_mask,
      exists q a',
        choose_action (obs6 inv bo ord inc hc bc) reward terminated truncated
          info action_mask a = (Returned q, a')
        /\ 0 <= q <= action_high a)
  /\ (forall obs reward terminated truncated info action_mask q a',
         choose_action obs reward terminated truncated info action_mask a
         = (Returned q, a') ->
         0 <= q <= action_high a).
Proof.
  intros Hhigh.
  assert (Hany : forall obs reward terminated truncated info action_mask q a',
             choose_action obs reward terminated truncated info action_mask a
             = (Returned q, a') ->
             0 <= q <= action_high a).
  { intros obs reward terminated truncated info action_mask q a' Hcall.
    destruct (choose_action_cases a obs reward terminated truncated info
                action_mask)
      as [(r & Hr & [Hzero|[e He]])|(inv & bo & ord & inc & _ & Hr)];
      rewrite Hr in Hcall.
    - subst r. injection Hcall as <- _. lra.
    - subst r. discriminate Hcall.
    - injection Hcall as <- _. unfold order_for.
      rewrite bound_action_clamp. now apply clamp_range. }
  split; [|exact Hany].
  intros inv bo ord inc hc bc reward terminated truncated info action_mask.
  destruct (terminated || truncated) eqn:Hflag.
  - exists 0, a. split; [now apply choose_action_terminal|lra].
  - apply orb_false_elim in Hflag as [-> ->].
    exists (order_for a inv bo ord inc), (decided a inv bo ord inc).
    assert (Hcall := choose_action_array a inv bo ord inc [hc; bc] reward
                       info action_mask).
    split; [exact Hcall|]. exact (Hany _ _ _ _ _ _ _ _ Hcall).
Qed.

(** C2: a call with [terminated] or [truncated] set returns exactly 0 and
    leaves [demand_history], [last_orders] and [avg_demand] as they were,
    and so does any sequence of such calls. *)
Theorem terminal_call_frame (a : Agent) (obs : pyobs) (reward : R)
    (terminated truncated : bool) (info : pyinfo) (action_mask : pymask) :
  terminated || truncated = true ->
  let a' := snd (choose_action obs reward terminated truncated info
                   action_mask a) in
  fst (choose_action obs reward terminated truncated info action_mask a)
  = Returned 0
  /\ demand_history a' = demand_history a
  /\ last_orders a' = last_orders a
  /\ avg_demand a' = avg_demand a
  /\ (forall cs, forallb terminal cs = true ->
        run a cs = a
        /\ Forall (fun c => fst (step c a) = Returned 0) cs).
Proof.
  intros Hflag a'. subst a'.
  rewrite (choose_action_terminal a obs reward terminated truncated info
             action_mask Hflag).
  simpl. do 4 (split; [reflexivity|]).
  induction cs as [|c cs IH]; intros Hall.
  - split; [reflexivity|constructor].
  - simpl in Hall. apply andb_prop in Hall as [Hc Hcs].
    assert (Hstep : step c a = (Returned 0, a)).
    { unfold step. now apply choose_action_terminal. }
    destruct (IH Hcs) as [Hrun Houts].
    split.
    + simpl. now rewrite Hstep.
    + constructor; [now rewrite Hstep|exact Houts].
Qed.

Lemma terminal_call_frame_witness :
  fst (choose_action NotIterable 0 true false None None retailer) = Returned 0
  /\ avg_demand (snd (choose_action NotIterable 0 true false None None
                        retailer)) = None.
Proof.
  destruct (terminal_call_frame retailer NotIterable 0 true false None None
              eq_refl) as (Hret & _ & _ & Havg & _).
  split; [exact Hret|exact Havg].
Defined.

(** ** The bounded histories *)

Section Deque.

Variable d : deque.
Variable x : R.

Lemma deque_append_maxlen : maxlen (deque_append d x) = maxlen d.
Proof. reflexivity. Qed.

Lemma deque_append_len :
  (len d <= maxlen d)%nat -> (len (deque_append d x) <= maxlen d)%nat.
Proof.
  unfold len, deque_append. simpl. intros Hlen.
  destruct (maxlen d <? List.length (items d ++ [x]))%nat eqn:Hfull.
  - destruct (items d) as [|y ys]; simpl in *; [lia|].
    rewrite length_app. simpl. lia.
  - apply Nat.ltb_ge in Hfull. exact Hfull.
Qed.

(** With room left the value is added; at capacity the oldest value, the
    leftmost, goes first. *)
Lemma deque_append_items :
  (0 < maxlen d)%nat -> (len d <= maxlen d)%nat ->
  items (deque_append d x)
  = ((if (len d =? maxlen d)%nat then tl (items d) else items d) ++ [x])%list.
Proof.
  unfold len, deque_append. simpl. intros Hpos Hlen.
  rewrite length_app. simpl.
  destruct (List.length (items d) =? maxlen d)%nat eqn:Hcap.
  - apply Nat.eqb_eq in Hcap.
    replace (maxlen d <? List.length (items d) + 1)%nat with true
      by (symmetry; apply Nat.ltb_lt; lia).
    destruct (items d) as [|y ys]; simpl in *; [lia|reflexivity].
  - apply Nat.eqb_neq in Hcap.
    replace (maxlen d <? List.length (items d) + 1)%nat with false
      by (symmetry; apply Nat.ltb_ge; lia).
    reflexivity.
Qed.

End Deque.

Lemma init_bounded (env : Env) (player_name : option string) (a0 : Agent) :
  __init__ env player_name = Returned a0 -> histories_bounded a0.
Proof.
  unfold __init__. intros Hinit.
  destruct (match player_name with
            | Some n => if (String.length n =? 0)%nat then None else Some n
            | None => None
            end) as [n|].
  - destruct (Py.index (possible_agents env) n); [|discriminate].
    injection Hinit as <-. repeat split; unfold len, deque_new; simpl; lia.
  - destruct (agents env) as [|n ns]; [discriminate|].
    destruct (Py.index (possible_agents env) n); [|discriminate].
    injection Hinit as <-. repeat split; unfold len, deque_new; simpl; lia.
Qed.

Lemma decided_bounded (a : Agent) (inv bo ord inc : R) :
  histories_bounded a -> histories_bounded (decided a inv bo ord inc).
Proof.
  intros (Hm1 & Hm2 & Hl1 & Hl2). unfold histories_bounded, decided, estimated.
  cbn [demand_history last_orders set_last_orders
    set_avg_demand set_demand_history].
  repeat split.
  - exact Hm1.
  - exact Hm2.
  - rewrite <- Hm1. apply deque_append_len. now rewrite Hm1.
  - rewrite <- Hm2. apply deque_append_len. now rewrite Hm2.
Qed.

Lemma step_bounded (c : call) (a : Agent) :
  histories_bounded a -> histories_bounded (snd (step c a)).
Proof.
  intros Hinv. unfold step.
  destruct (choose_action_cases a (c_observation c) (c_reward c)
              (c_terminated c) (c_truncated c) (c_info c) (c_action_mask c))
    as [(r & Hr & _)|(inv & bo & ord & inc & _ & Hr)]; rewrite Hr; simpl.
  - exact Hinv.
  - now apply decided_bounded.
Qed.

Lemma run_bounded (cs : list call) (a : Agent) :
  histories_bounded a -> histories_bounded (run a cs).
Proof.
  revert a. induction cs as [|c cs IH]; intros a Hinv; simpl.
  - exact Hinv.
  - apply IH. now apply step_bounded.
Qed.

(** C3: after any sequence of calls on a new instance [demand_history]
    holds at most 8 values and [last_orders] at most 4, and the next
    decision adds the demand and the order it returns at the right end,
    dropping the oldest value of a history that is full. *)
Theorem histories_stay_bounded (env : Env) (player_name : option string)
    (a0 : Agent) (cs : list call) :
  __init__ env player_name = Returned a0 ->
  let a := run a0 cs in
  (len (demand_history a) <= 8)%nat
  /\ (len (last_orders a) <= 4)%nat
  /\ (forall inv bo ord inc hc bc reward info action_mask,
         exists q a',
           choose_action (obs6 inv bo ord inc hc bc) reward false false info
             action_mask a = (Returned q, a')
           /\ items (demand_history a')
              = ((if (len (demand_history a) =? 8)%nat
                  then tl (items (demand_history a))
                  else items (demand_history a)) ++ [ord])%list
           /\ items (last_orders a')
              = ((if (len (last_orders a) =? 4)%nat
                  then tl (items (last_orders a))
                  else items (last_orders a)) ++ [q])%list).
Proof.
  intros Hinit a.
  assert (Hinv : histories_bounded a).
  { apply run_bounded. exact (init_bounded _ _ _ Hinit). }
  destruct Hinv as (Hm1 & Hm2 & Hl1 & Hl2).
  split; [exact Hl1|]. split; [exact Hl2|].
  intros inv bo ord inc hc bc reward info action_mask.
  exists (order_for a inv bo ord inc), (decided a inv bo ord inc).
  split; [apply choose_action_array|].
  unfold decided, estimated.
  cbn [demand_history last_orders set_last_orders set_avg_demand
         set_demand_history].
  split.
  - rewrite deque_append_items;
      [now rewrite Hm1|rewrite Hm1; lia|now rewrite Hm1].
  - rewrite deque_append_items;
      [now rewrite Hm2|rewrite Hm2; lia|now rewrite Hm2].
Qed.

Lemma histories_stay_bounded_witness :
  (len (demand_history
          (run retailer (repeat (observe 10 0 5 0 1 2) 10))) <= 8)%nat.
Proof.
  exact (proj1 (histories_stay_bounded chain_env None retailer
                  (repeat (observe 10 0 5 0 1 2) 10) eq_refl)).
Defined.

(** ** The order ceiling *)

(** The ceiling is read by the bound alone. *)
Lemma order_for_ceiling (a : Agent) (c inv bo ord inc : R) :
  order_for (set_action_high a c) inv bo ord inc
  = Spec.clamp c
      (adjust_position (estimated a ord) (smooth_bullwhip (estimated a ord)
         (raw_order_for a inv bo ord inc))).
Proof.
  unfold order_for. rewrite bound_action_clamp.
  destruct a; reflexivity.
Qed.

(** C8: with the state and the arguments fixed, a larger order ceiling
    never makes [choose_action] return less: both calls return, the one
    with the larger ceiling at least as much, or both raise the same
    exception. *)
Theorem ceiling_monotone (a : Agent) (c1 c2 : R) (obs : pyobs) (reward : R)
    (terminated truncated : bool) (info : pyinfo) (action_mask : pymask) :
  c1 <= c2 ->
  match
    fst (choose_action obs reward terminated truncated info action_mask
           (set_action_high a c1)),
    fst (choose_action obs reward terminated truncated info action_mask
           (set_action_high a c2))
  with
  | Returned q1, Returned q2 => q1 <= q2
  | Raised e1, Raised e2 => e1 = e2
  | _, _ => False
  end.
Proof.
  intros Hc.
  destruct (terminated || truncated) eqn:Hflag.
  - rewrite !choose_action_terminal by exact Hflag. simpl. lra.
  - apply orb_false_elim in Hflag as [-> ->].
    destruct obs as [|[|x0 [|x1 [|x2 [|x3 xs]]]]]; try reflexivity.
    rewrite !choose_action_array. cbn [fst].
    rewrite !order_for_ceiling. now apply clamp_monotone.
Qed.

Lemma ceiling_monotone_witness :
  match
    fst (choose_action (obs6 10 0 5 0 1 2) 0 false false None None
           (set_action_high retailer 3)),
    fst (choose_action (obs6 10 0 5 0 1 2) 0 false false None None
           (set_action_high retailer 100))
  with
  | Returned q1, Returned q2 => q1 <= q2
  | Raised e1, Raised e2 => e1 = e2
  | _, _ => False
  end.
Proof.
  apply (ceiling_monotone retailer 3 100). lra.
Defined.

(** ** What a call does not read *)

(** C9: two calls in the same state whose observations agree on
    [inventory], [backorders], [orders] and [incoming_shipments] return the
    same order and leave the same state, whatever [holding_cost],
    [backorder_cost], [reward], [info] and [action_mask] are in each. *)
Theorem costs_and_auxiliaries_ignored (a : Agent) (inv bo ord inc : R)
    (hc1 bc1 hc2 bc2 reward1 reward2 : R) (terminated truncated : bool)
    (info1 info2 : pyinfo) (mask1 mask2 : pymask) :
  choose_action (obs6 inv bo ord inc hc1 bc1) reward1 terminated truncated
    info1 mask1 a
  = choose_action (obs6 inv bo ord inc hc2 bc2) reward2 terminated truncated
      info2 mask2 a.
Proof.
  destruct (terminated || truncated) eqn:Hflag.
  - now rewrite !choose_action_terminal by exact Hflag.
  - apply orb_false_elim in Hflag as [-> ->].
    unfold obs6. now rewrite !choose_action_array.
Qed.

(** C10: with [terminated] or [truncated] set the call returns 0 and
    leaves the state alone whatever the observation is, also for one that
    makes the non-terminal call raise: a value that cannot be iterated
    ([TypeError]) or an array of fewer than four entries ([KeyError]). *)
Theorem terminal_call_ignores_observation (a : Agent) (obs : pyobs)
    (reward : R) (terminated truncated : bool) (info : pyinfo)
    (action_mask : pymask) :
  terminated || truncated = true ->
  choose_action obs reward terminated truncated info action_mask a
  = (Returned 0, a)
  /\ choose_action NotIterable reward false false info action_mask a
     = (Raised TypeError, a)
  /\ (forall xs, (List.length xs < 4)%nat ->
        (exists k,
            fst (choose_action (FlatArray xs) reward false false info
                   action_mask a) = Raised (KeyError k))
        /\ choose_action (FlatArray xs) reward terminated truncated info
             action_mask a = (Returned 0, a)).
Proof.
  intros Hflag. split; [now apply choose_action_terminal|].
  split; [reflexivity|].
  intros xs Hlen. split; [|now apply choose_action_terminal].
  destruct (choose_action_short a xs reward info action_mask Hlen) as [k Hk].
  exists k. now rewrite Hk.
Qed.

Lemma terminal_call_ignores_observation_witness :
  choose_action (FlatArray [1; 2]) 0 false true None None factory
  = (Returned 0, factory).
Proof.
  exact (proj1 (terminal_call_ignores_observation factory (FlatArray [1; 2])
                  0 false true None None eq_refl)).
Defined.

(** ** The demand estimate *)

Lemma np_mean_average (xs : list R) : Np.mean xs = Spec.average xs.
Proof. unfold Np.mean, Spec.average. now rewrite py_sum_total. Qed.

(** [np.std] divides the squared deviations by the number of values. *)
Lemma np_std_population (xs : list R) : Np.std xs = Spec.population_std xs.
Proof.
  unfold Np.std, Spec.population_std, Spec.squared_deviations.
  rewrite !np_mean_average. unfold Spec.average at 1.
  rewrite length_map. f_equal. f_equal. f_equal.
  apply map_ext. intros x.
  rewrite <- Rabs_mult. apply Rabs_pos_eq.
  apply (Rle_0_sqr (x - Spec.average xs)).
Qed.

Lemma step_config (c : call) (a : Agent) : same_config a (snd (step c a)).
Proof.
  unfold step.
  destruct (choose_action_cases a (c_observation c) (c_reward c)
              (c_terminated c) (c_truncated c) (c_info c) (c_action_mask c))
    as [(r & Hr & _)|(inv & bo & ord & inc & _ & Hr)]; rewrite Hr;
    repeat split.
Qed.

Lemma run_config (cs : list call) (a : Agent) : same_config a (run a cs).
Proof.
  revert a. induction cs as [|c cs IH]; intros a; simpl.
  - repeat split.
  - destruct (step_config c a) as (H1 & H2 & H3 & H4).
    destruct (IH (snd (step c a))) as (K1 & K2 & K3 & K4).
    repeat split; congruence.
Qed.

(** Once there is a demand estimate there always is one. *)
Lemma step_avg_demand (c : call) (a : Agent) :
  avg_demand a <> None -> avg_demand (snd (step c a)) <> None.
Proof.
  intros Havg. unfold step.
  destruct (choose_action_cases a (c_observation c) (c_reward c)
              (c_terminated c) (c_truncated c) (c_info c) (c_action_mask c))
    as [(r & Hr & _)|(inv & bo & ord & inc & _ & Hr)]; rewrite Hr.
  - exact Havg.
  - discriminate.
Qed.

Lemma run_avg_demand (cs : list call) (a : Agent) :
  avg_demand a <> None -> avg_demand (run a cs) <> None.
Proof.
  revert a. induction cs as [|c cs IH]; intros a Havg; simpl.
  - exact Havg.
  - apply IH. now apply step_avg_demand.
Qed.

Lemma init_fresh (env : Env) (player_name : option string) (a0 : Agent) :
  __init__ env player_name = Returned a0 ->
  avg_demand a0 = None /\ items (demand_history a0) = []
  /\ items (last_orders a0) = [] /\ smoothing_factor a0 = 3 / 10
  /\ lead_time a0 = 2 + INR (position a0) * (3 / 2).
Proof.
  unfold __init__. intros Hinit.
  destruct (match player_name with
            | Some n => if (String.length n =? 0)%nat then None else Some n
            | None => None
            end) as [n|].
  - destruct (Py.index (possible_agents env) n); [|discriminate].
    injection Hinit as <-. repeat split.
  - destruct (agents env) as [|n ns]; [discriminate|].
    destruct (Py.index (possible_agents env) n); [|discriminate].
    injection Hinit as <-. repeat split.
Qed.

Lemma init_ceiling (env : Env) (player_name : option string) (a0 : Agent) :
  __init__ env player_name = Returned a0 ->
  exists name, action_high a0 = action_space_high env name.
Proof.
  unfold __init__. intros Hinit.
  destruct (match player_name with
            | Some n => if (String.length n =? 0)%nat then None else Some n
            | None => None
            end) as [n|].
  - destruct (Py.index (possible_agents env) n); [|discriminate].
    injection Hinit as <-. now exists n.
  - destruct (agents env) as [|n ns]; [discriminate|].
    destruct (Py.index (possible_agents env) n); [|discriminate].
    injection Hinit as <-. now exists n.
Qed.

(** ** The bound on the order *)

(** C1: in every state that a sequence of calls reaches from a new instance
    whose order ceiling, the [high] of its action space, is not negative,
    the ceiling is still the same, [choose_action] returns on every
    six-field observation, and what a call returns lies between 0 and the
    ceiling, on the terminal path (0) and on the clamped path alike. *)
Theorem choose_action_in_bounds (env : Env) (player_name : option string)
    (a0 : Agent) (cs : list call) :
  __init__ env player_name = Returned a0 ->
  0 <= action_high a0 ->
  let a := run a0 cs in
  let orderCeiling := action_high a0 in
  (exists name, orderCeiling = action_space_high env name)
  /\ action_high a = orderCeiling
  /\ (forall inv bo ord inc hc bc reward terminated truncated info
             action_mask,
         exists q a',
           choose_action (obs6 inv bo ord inc hc bc) reward terminated
             truncated info action_mask a = (Returned q, a')
           /\ 0 <= q <= orderCeiling)
  /\ (forall obs reward terminated truncated info action_mask q a',
         choose_action obs reward terminated truncated info action_mask a
         = (Returned q, a') ->
         0 <= q <= orderCeiling).
Proof.
  intros Hinit Hhigh a orderCeiling.
  split; [exact (init_ceiling _ _ _ Hinit)|].
  destruct (run_config cs a0) as (_ & Hsame & _). fold a in Hsame.
  split; [exact Hsame|].
  unfold orderCeiling. rewrite <- Hsame.
  apply returned_in_bounds. now rewrite Hsame.
Qed.

Lemma choose_action_in_bounds_witness :
  exists q a',
    choose_action (obs6 10 0 5 0 1 2) 0 false false None None
      (run retailer [observe 10 0 5 0 1 2]) = (Returned q, a')
    /\ 0 <= q <= 100.
Proof.
  assert (Hhigh : 0 <= action_high retailer) by (simpl; lra).
  exact (proj1 (proj2 (proj2 (choose_action_in_bounds chain_env None retailer
                                [observe 10 0 5 0 1 2] eq_refl Hhigh)))
           10 0 5 0 1 2 0 false false None None).
Defined.

(** C7: the first non-terminal call on a new instance, whose
    [avg_demand] is [None] and whose [demand_history] is empty, sets
    [avg_demand] to the [orders] value of the observation itself; every
    later call finds an estimate and replaces it by
    [smoothing_factor * demand + (1 - smoothing_factor) * previous]. *)
Theorem demand_estimate_update (env : Env) (player_name : option string)
    (a0 : Agent) :
  __init__ env player_name = Returned a0 ->
  avg_demand a0 = None /\ items (demand_history a0) = []
  /\ forall inv bo ord inc hc bc reward info action_mask,
      let a1 := snd (choose_action (obs6 inv bo ord inc hc bc) reward
                       false false info action_mask a0) in
      avg_demand a1 = Some ord
      /\ forall cs inv' bo' ord' inc' hc' bc' reward' info' action_mask',
          let a := run a1 cs in
          exists previous,
            avg_demand a = Some previous
            /\ smoothing_factor a = smoothing_factor a0
            /\ avg_demand
                 (snd (choose_action (obs6 inv' bo' ord' inc' hc' bc')
                         reward' false false info' action_mask' a))
               = Some (smoothing_factor a0 * ord'
                       + (1 - smoothing_factor a0) * previous).
Proof.
  intros Hinit.
  destruct (init_fresh _ _ _ Hinit) as (Havg & Hhist & _).
  split; [exact Havg|]. split; [exact Hhist|].
  intros inv bo ord inc hc bc reward info action_mask a1.
  assert (Ha1 : a1 = decided a0 inv bo ord inc).
  { subst a1. unfold obs6. now rewrite choose_action_array. }
  assert (Havg1 : avg_demand a1 = Some ord).
  { rewrite Ha1. unfold decided, estimated.
    cbn [avg_demand set_last_orders set_avg_demand]. now rewrite Havg. }
  split; [exact Havg1|].
  intros cs inv' bo' ord' inc' hc' bc' reward' info' action_mask' a.
  assert (Hsome : avg_demand a <> None).
  { apply run_avg_demand. now rewrite Havg1. }
  destruct (avg_demand a) as [previous|] eqn:Hprev; [|contradiction].
  exists previous. split; [reflexivity|].
  assert (Hsf : smoothing_factor a = smoothing_factor a0).
  { destruct (run_config cs a1) as (_ & _ & Hsf & _).
    fold a in Hsf. rewrite Hsf, Ha1. reflexivity. }
  split; [exact Hsf|].
  unfold obs6. rewrite choose_action_array.
  unfold decided, estimated.
  cbn [snd avg_demand set_last_orders set_avg_demand].
  now rewrite Hprev, Hsf.
Qed.

Lemma demand_estimate_update_witness :
  avg_demand (snd (choose_action (obs6 10 0 5 0 1 2) 0 false false None None
                     retailer)) = Some 5.
Proof.
  exact (proj1 (proj2 (proj2 (demand_estimate_update chain_env None retailer
                                eq_refl))
                  10 0 5 0 1 2 0 None None)).
Defined.

(** ** The variability estimate *)

Lemma squared_deviations_0_20 : Spec.squared_deviations [0; 20] = 200.
Proof.
  unfold Spec.squared_deviations, Spec.average, Spec.total.
  cbn [map fold_right List.length INR]. field.
Qed.

(** C4, as stated, fails: a retailer that has seen the demand 0 and now
    sees the demand 20 holds the history [0; 20], whose standard deviation
    by [np.std] is 10 and whose sample standard deviation is [sqrt 200]. *)
Lemma sample_std_refuted :
  ~ std_as_stated (run retailer [observe 10 0 0 0 1 2]) 20.
Proof.
  unfold std_as_stated.
  assert (Hrun : run retailer [observe 10 0 0 0 1 2]
                 = decided retailer 10 0 0 0) by reflexivity.
  rewrite Hrun.
  assert (Hitems : items (demand_history (estimated (decided retailer 10 0 0 0) 20))
                   = [0; 20]) by reflexivity.
  unfold demand_std, len. rewrite Hitems.
  cbn [List.length Nat.ltb Nat.leb].
  rewrite np_std_population.
  unfold Spec.population_std, Spec.sample_std.
  rewrite squared_deviations_0_20. cbn [List.length INR].
  replace (200 / (1 + 1)) with (10 * 10) by field.
  replace (200 / (1 + 1 - 1)) with 200 by field.
  rewrite sqrt_square by lra.
  intros Heq.
  assert (Hsq : sqrt 200 * sqrt 200 = 200) by (apply sqrt_sqrt; lra).
  rewrite <- Heq in Hsq. lra.
Qed.

Lemma demand_std_spec (a : Agent) (s : R) :
  demand_std a s
  = if (2 <=? len (demand_history a))%nat
    then Spec.population_std (items (demand_history a))
    else 2 / 10 * s.
Proof.
  unfold demand_std.
  destruct (len (demand_history a)) as [|[|n]]; cbn [Nat.ltb Nat.leb].
  - lra.
  - lra.
  - apply np_std_population.
Qed.

(** C4, amended: the variability estimate of a decision is the population
    standard deviation of [demand_history] (the squared deviations from the
    mean divided by the number of values, what [np.std] computes) when the
    history, the new demand included, holds at least 2 values, and 0.2
    times the new demand estimate otherwise; the order returned is the one
    computed from that estimate. *)
Theorem demand_std_population (a : Agent) (inv bo ord inc hc bc : R)
    (reward : R) (info : pyinfo) (action_mask : pymask) :
  let a1 := estimated a ord in
  let s := Spec.smoothedDemand (smoothing_factor a) (avg_demand a) ord in
  let sd := if (2 <=? len (demand_history a1))%nat
            then Spec.population_std (items (demand_history a1))
            else 2 / 10 * s in
  demand_std a1 s = sd
  /\ fst (choose_action (obs6 inv bo ord inc hc bc) reward false false info
            action_mask a)
     = Returned
         (bound_action a (adjust_position a (smooth_bullwhip a
            (base_order_quantity s (target_stock a s sd)
               (inventory_position a inv bo inc))))).
Proof.
  intros a1 s sd.
  assert (Hsd : demand_std a1 s = sd) by apply demand_std_spec.
  split; [exact Hsd|].
  unfold obs6. rewrite choose_action_array. cbn [fst].
  unfold order_for, raw_order_for. fold a1 s. rewrite Hsd. reflexivity.
Qed.

(** ** The base-stock rule *)

Lemma inventory_position_spec (a : Agent) (inv bo inc : R) :
  inventory_position a inv bo inc
  = Spec.inventoryPosition inv bo inc (items (last_orders a)).
Proof.
  unfold inventory_position, Spec.inventoryPosition.
  now rewrite py_sum_total.
Qed.

Lemma raw_order_for_spec (a : Agent) (inv bo ord inc : R) :
  let s := Spec.smoothedDemand (smoothing_factor a) (avg_demand a) ord in
  raw_order_for a inv bo ord inc
  = Spec.rawOrder s
      (Spec.targetStock (demand_std (estimated a ord) s) s (lead_time a))
      (Spec.inventoryPosition inv bo inc (items (last_orders a))).
Proof.
  intros s. unfold raw_order_for, base_order_quantity. fold s.
  rewrite py_max_Rmax, inventory_position_spec. reflexivity.
Qed.

(** C5: in a non-terminal decision the inventory position is
    [inventory - backorders + incoming_shipments] plus the sum of the
    entries of [last_orders], the safety stock is
    [1.96 * demandStd * sqrt leadTime], the target stock is the safety stock
    plus [smoothedDemand * leadTime], and the quantity that goes into
    smoothing, adjustment and bound is
    [max 0 (smoothedDemand + (targetStock - inventoryPosition))]. *)
Theorem base_stock_rule (a : Agent) (inv bo ord inc hc bc : R)
    (reward : R) (info : pyinfo) (action_mask : pymask) :
  let a1 := estimated a ord in
  let smoothedDemand :=
    Spec.smoothedDemand (smoothing_factor a) (avg_demand a) ord in
  let demandStd := demand_std a1 smoothedDemand in
  let inventoryPosition :=
    inv - bo + inc + Spec.total (items (last_orders a)) in
  let safetyStock := 196 / 100 * demandStd * sqrt (lead_time a) in
  let targetStock := safetyStock + smoothedDemand * lead_time a in
  let raw := Rmax 0 (smoothedDemand + (targetStock - inventoryPosition)) in
  inventory_position a1 inv bo inc = inventoryPosition
  /\ _calculate_safety_stock a1 demandStd = safetyStock
  /\ target_stock a1 smoothedDemand demandStd = targetStock
  /\ raw_order_for a inv bo ord inc = raw
  /\ fst (choose_action (obs6 inv bo ord inc hc bc) reward false false info
            action_mask a)
     = Returned (bound_action a (adjust_position a (smooth_bullwhip a raw))).
Proof.
  intros a1 s sd ip safety target raw.
  assert (Hraw : raw_order_for a inv bo ord inc = raw).
  { exact (raw_order_for_spec a inv bo ord inc). }
  split; [apply inventory_position_spec|].
  split; [reflexivity|]. split; [reflexivity|]. split; [exact Hraw|].
  unfold obs6. rewrite choose_action_array. cbn [fst].
  unfold order_for. rewrite Hraw. reflexivity.
Qed.

(** ** Bullwhip smoothing *)

Lemma blend_empty (raw : R) : Spec.blend raw [] = raw.
Proof. reflexivity. Qed.

Lemma blend_recent (raw : R) (older : list R) (recent : R) :
  Spec.blend raw (older ++ [recent]) = 7 / 10 * raw + 3 / 10 * recent.
Proof. unfold Spec.blend. now rewrite rev_unit. Qed.

Lemma smooth_bullwhip_blend (a : Agent) (q : R) :
  smooth_bullwhip a q = Spec.blend q (items (last_orders a)).
Proof.
  unfold smooth_bullwhip.
  destruct (items (last_orders a)) as [|y ys] eqn:Hitems; [reflexivity|].
  rewrite <- Hitems.
  assert (Hne : items (last_orders a) <> []) by (rewrite Hitems; discriminate).
  destruct (exists_last Hne) as (older & recent & ->).
  now rewrite blend_recent, last_last.
Qed.

(** C6: in a non-terminal decision the quantity that goes into adjustment
    and bound is the raw quantity itself when [last_orders] is empty, as it
    is for the first order of an instance, and otherwise
    [0.7 * raw + 0.3 * recent] with [recent] the rightmost, most recent,
    entry of [last_orders]. *)
Theorem bullwhip_smoothing (a : Agent) (inv bo ord inc hc bc : R)
    (reward : R) (info : pyinfo) (action_mask : pymask) :
  let raw := raw_order_for a inv bo ord inc in
  let returned :=
    fst (choose_action (obs6 inv bo ord inc hc bc) reward false false info
           action_mask a) in
  (items (last_orders a) = [] ->
   returned = Returned (bound_action a (adjust_position a raw)))
  /\ (forall older recent,
         items (last_orders a) = (older ++ [recent])%list ->
         returned
         = Returned (bound_action a (adjust_position a
                       (7 / 10 * raw + 3 / 10 * recent))))
  /\ (forall env player_name,
         __init__ env player_name = Returned a ->
         returned = Returned (bound_action a (adjust_position a raw))).
Proof.
  intros raw returned.
  assert (Hret : returned
                 = Returned (bound_action a (adjust_position a
                      (Spec.blend raw (items (last_orders a)))))).
  { unfold returned, obs6. rewrite choose_action_array. cbn [fst].
    unfold order_for. fold raw. rewrite smooth_bullwhip_blend. reflexivity. }
  split; [|split].
  - intros Hempty. now rewrite Hret, Hempty.
  - intros older recent Hitems. now rewrite Hret, Hitems, blend_recent.
  - intros env player_name Hinit.
    destruct (init_fresh _ _ _ Hinit) as (_ & _ & Hempty & _).
    now rewrite Hret, Hempty.
Qed.

Lemma bullwhip_smoothing_witness :
  fst (choose_action (obs6 10 0 5 0 1 2) 0 false false None None
         (decided retailer 10 0 5 0))
  = Returned
      (bound_action (decided retailer 10 0 5 0)
         (adjust_position (decided retailer 10 0 5 0)
            (7 / 10 * raw_order_for (decided retailer 10 0 5 0) 10 0 5 0
             + 3 / 10 * order_for retailer 10 0 5 0)))
  /\ fst (choose_action (obs6 10 0 5 0 1 2) 0 false false None None retailer)
     = Returned
         (bound_action retailer
            (adjust_position retailer (raw_order_for retailer 10 0 5 0))).
Proof.
  split.
  - exact (proj1 (proj2 (bullwhip_smoothing (decided retailer 10 0 5 0)
                           10 0 5 0 1 2 0 None None))
             [] (order_for retailer 10 0 5 0) eq_refl).
  - exact (proj1 (bullwhip_smoothing retailer 10 0 5 0 1 2 0 None None)
             eq_refl).
Defined.

(** ** The whole decision *)

Lemma adjust_position_amplify (a : Agent) (q : R) :
  adjust_position a q = Spec.amplify (position a) q.
Proof. unfold adjust_position, Spec.amplify. now destruct (position a). Qed.

(** The order of a non-terminal call, step by step in the words of the
    specification, with the population standard deviation for the
    variability estimate. *)
Lemma order_for_spec (a : Agent) (inv bo ord inc : R) :
  let history := items (demand_history (estimated a ord)) in
  let s := Spec.smoothedDemand (smoothing_factor a) (avg_demand a) ord in
  let sd := if (2 <=? List.length history)%nat
            then Spec.population_std history
            else 2 / 10 * s in
  order_for a inv bo ord inc
  = Spec.clamp (action_high a)
      (Spec.amplify (position a)
         (Spec.blend
            (Spec.rawOrder s (Spec.targetStock sd s (lead_time a))
               (Spec.inventoryPosition inv bo inc (items (last_orders a))))
            (items (last_orders a)))).
Proof.
  intros history s sd. unfold order_for.
  rewrite bound_action_clamp, adjust_position_amplify, smooth_bullwhip_blend.
  rewrite raw_order_for_spec. fold s.
  rewrite demand_std_spec. reflexivity.
Qed.

(** ** Scenarios *)

(** The first order of the retailer of [chain_env] on the observation
    [inventory=10, backorders=0, orders=5, incoming_shipments=0]: the
    demand estimate is 5, the variability estimate 1, the lead time 2, so
    the order is [5 + 1.96 * sqrt 2], and it is the one entry of
    [last_orders] afterwards. *)
Example first_order_of_retailer :
  choose_action (obs6 10 0 5 0 1 2) 0 false false None None retailer
  = (Returned (5 + 196 / 100 * sqrt 2), decided retailer 10 0 5 0)
  /\ items (last_orders (decided retailer 10 0 5 0))
     = [5 + 196 / 100 * sqrt 2]
  /\ 0 < 5 + 196 / 100 * sqrt 2 <= 100.
Proof.
  assert (Hsqrt : 0 <= sqrt 2 <= 2).
  { split; [apply sqrt_pos|].
    rewrite <- (sqrt_square 2) at 2 by lra. apply sqrt_le_1_alt. lra. }
  assert (Hq : order_for retailer 10 0 5 0 = 5 + 196 / 100 * sqrt 2).
  { unfold order_for, raw_order_for, bound_action, adjust_position,
      smooth_bullwhip, base_order_quantity, target_stock,
      _calculate_safety_stock, demand_std, inventory_position, Py.sum, len.
    cbn [estimated retailer items last_orders demand_history deque_new
         deque_append set_avg_demand set_demand_history action_high position
         lead_time avg_demand smoothing_factor Spec.smoothedDemand Nat.ltb
         Nat.leb List.length app fold_left maxlen tl].
    unfold _estimate_lead_time. cbn [INR].
    replace (2 + 0 * (3 / 2)) with 2 by lra.
    rewrite py_min_Rmin, !py_max_Rmax.
    rewrite (Rmax_right 0) by lra. rewrite Rmax_left by lra.
    rewrite Rmin_left by lra. lra. }
  split; [|split].
  - unfold obs6. rewrite choose_action_array. now rewrite Hq.
  - unfold decided.
    cbn [last_orders set_last_orders estimated set_avg_demand
         set_demand_history retailer deque_append items maxlen deque_new app
         List.length Nat.ltb Nat.leb].
    now rewrite Hq.
  - lra.
Qed.

(** After ten decisions both histories are full. *)
Example ten_decisions :
  len (demand_history (run retailer (repeat (observe 10 0 5 0 1 2) 10)))
  = 8%nat
  /\ len (last_orders (run retailer (repeat (observe 10 0 5 0 1 2) 10)))
     = 4%nat.
Proof. split; reflexivity. Qed.

(** A terminal call as the very first call. *)
Example terminal_first_call :
  choose_action (obs6 10 0 5 0 1 2) 0 true false None None retailer
  = (Returned 0, retailer).
Proof. reflexivity. Qed.

(** ** Creating an instance *)

Lemma index_returned (xs : list string) (x : string) (n : nat) :
  Py.index xs x = Returned n ->
  nth_error xs n = Some x
  /\ forall j, (j < n)%nat -> nth_error xs j <> Some x.
Proof.
  revert n. induction xs as [|y ys IH]; intros n; simpl; [discriminate|].
  destruct (String.eqb y x) eqn:Heq.
  - intros Hn. injection Hn as <-. apply String.eqb_eq in Heq. subst y.
    split; [reflexivity|]. intros j Hj. lia.
  - destruct (Py.index ys x) as [m|e]; [|discriminate].
    intros Hn. injection Hn as <-.
    destruct (IH m eq_refl) as [Hnth Hfirst].
    split; [exact Hnth|].
    intros [|j] Hj; simpl.
    + intros Hy. injection Hy as ->. rewrite String.eqb_refl in Heq.
      discriminate.
    + apply Hfirst. lia.
Qed.


(** [__init__] in terms of the player it is created for. *)
Lemma init_player (env : Env) (player_name : option string) :
  __init__ env player_name
  = match player_of env player_name with
    | None => Raised IndexError
    | Some n =>
        match Py.index (possible_agents env) n with
        | Raised e => Raised e
        | Returned pos =>
            Returned (mk_Agent pos (action_space_high env n)
                        (3 / 2) 14 (3 / 10) (_estimate_lead_time pos)
                        (deque_new 8) (deque_new 4) None)
        end
    end.
Proof.
  unfold __init__, player_of.
  destruct player_name as [[|c n]|]; simpl;
    destruct (agents env) as [|m ms]; reflexivity.
Qed.

(** The position of a new instance is the index of the first occurrence of
    its player in [env.possible_agents], and its order ceiling is that
    player's. *)
Theorem init_position (env : Env) (player_name : option string)
    (a0 : Agent) :
  __init__ env player_name = Returned a0 ->
  exists name,
    player_of env player_name = Some name
    /\ nth_error (possible_agents env) (position a0) = Some name
    /\ (forall j, (j < position a0)%nat ->
          nth_error (possible_agents env) j <> Some name)
    /\ action_high a0 = action_space_high env name.
Proof.
  rewrite init_player.
  destruct (player_of env player_name) as [name|]; [|discriminate].
  destruct (Py.index (possible_agents env) name) as [pos|e] eqn:Hidx;
    [|discriminate].
  intros Hinit. injection Hinit as <-. exists name.
  destruct (index_returned _ _ _ Hidx) as [Hnth Hfirst].
  repeat split; assumption.
Qed.

Lemma init_position_witness :
  exists name,
    player_of chain_env (Some "factory"%string) = Some name
    /\ nth_error (possible_agents chain_env) (position factory) = Some name
    /\ (forall j, (j < position factory)%nat ->
          nth_error (possible_agents chain_env) j <> Some name)
    /\ action_high factory = action_space_high chain_env name.
Proof.
  exact (init_position chain_env (Some "factory"%string) factory eq_refl).
Defined.



(** ** The observation as a dictionary *)

Lemma getitem_zip (keys : list string) (xs : list R) (i : nat) (k : string) :
  NoDup keys -> nth_error keys i = Some k ->
  getitem (map (fun kv => (fst kv, [snd kv])) (combine keys xs)) k
  = match nth_error xs i with
    | Some x => Returned [x]
    | None => Raised (KeyError k)
    end.
Proof.
  revert xs i. induction keys as [|k0 ks IH]; intros xs i Hnodup Hk.
  - destruct i; discriminate Hk.
  - inversion Hnodup as [|? ? Hnotin Hnodup']; subst.
    destruct xs as [|x xs]; [now destruct i|].
    destruct i as [|j]; simpl in *.
    + injection Hk as ->. now rewrite String.eqb_refl.
    + destruct (String.eqb k0 k) eqn:Heq.
      * apply String.eqb_eq in Heq. subst k0.
        apply nth_error_In in Hk. contradiction.
      * now apply IH.
Qed.

Lemma getitem_absent (d : dict) (k : string) :
  ~ In k (map fst d) -> getitem d k = Raised (KeyError k).
Proof.
  induction d as [|[k0 v] d IH]; simpl; intros Hnot; [reflexivity|].
  destruct (String.eqb k0 k) eqn:Heq.
  - apply String.eqb_eq in Heq. tauto.
  - apply IH. tauto.
Qed.

Lemma obs_keys_nodup : NoDup obs_keys.
Proof.
  unfold obs_keys.
  repeat (constructor; [simpl; intuition discriminate|]). constructor.
Qed.

(** [_array_to_dict_obs] maps the [i]-th key of [obs_keys] to the
    one-element array of the [i]-th entry of the array; a key whose entry
    the array does not have, and any other key, is missing from the
    dictionary, which has as many entries as the shorter of the two. *)
Theorem observation_dict_lookup (xs : list R) :
  exists d,
    _array_to_dict_obs (FlatArray xs) = Returned d
    /\ List.length d = Nat.min 6 (List.length xs)
    /\ (forall i key, nth_error obs_keys i = Some key ->
          getitem d key
          = match nth_error xs i with
            | Some x => Returned [x]
            | None => Raised (KeyError key)
            end)
    /\ (forall key, ~ In key obs_keys -> getitem d key = Raised (KeyError key)).
Proof.
  eexists. split; [reflexivity|]. split; [|split].
  - now rewrite length_map, length_combine.
  - intros i key Hkey. apply getitem_zip; [exact obs_keys_nodup|exact Hkey].
  - intros key Hnot. apply getitem_absent.
    intros Hin. apply Hnot.
    rewrite map_map in Hin.
    apply in_map_iff in Hin as ((k & x) & Hk & Hin).
    cbn [fst snd] in Hk. subst k.
    now apply in_combine_l in Hin.
Qed.

(** ** What a call does when it raises *)

Lemma getitem_raised (d : dict) (k : string) (e : exn) :
  getitem d k = Raised e -> e = KeyError k.
Proof.
  induction d as [|[k0 v] d IH]; simpl.
  - intros He. now injection He as <-.
  - destruct (String.eqb k0 k); [discriminate|exact IH].
Qed.

Lemma item0_raised (xs : list R) (e : exn) :
  item0 xs = Raised e -> e = IndexError.
Proof. destruct xs; simpl; [|discriminate]. intros He. now injection He. Qed.

(** [_estimate_demand] raises before it writes. *)
Lemma estimate_demand_raised (d : dict) (a a' : Agent) (e : exn) :
  _estimate_demand d a = (Raised e, a') ->
  a' = a /\ (e = KeyError "orders" \/ e = IndexError).
Proof.
  unfold _estimate_demand, bind, lift.
  destruct (getitem d "orders") as [arr|e1] eqn:Hget.
  - destruct (item0 arr) as [x|e2] eqn:Hitem.
    + simpl. destruct (avg_demand a); discriminate.
    + intros H. injection H as <- <-.
      split; [reflexivity|right; exact (item0_raised _ _ Hitem)].
  - intros H. injection H as <- <-.
    split; [reflexivity|left; exact (getitem_raised _ _ _ Hget)].
Qed.

(** When [_calculate_order_quantity] raises, on any dictionary, the state
    of the instance is the one before the call, and the exception is the
    [KeyError] of one of the four keys it reads or the [IndexError] of an
    empty array under one of them. *)
Theorem calculate_order_quantity_raised (d : dict) (a a' : Agent) (e : exn) :
  _calculate_order_quantity d a = (Raised e, a') ->
  a' = a
  /\ ((exists k,
         e = KeyError k
         /\ In k ["inventory"; "backorders"; "incoming_shipments";
                  "orders"]%string)
      \/ e = IndexError).
Proof.
  unfold _calculate_order_quantity. unfold bind at 1, lift at 1.
  destruct (getitem d "inventory") as [arr1|e1] eqn:Hget1.
  2:{ intros H. injection H as <- <-. split; [reflexivity|left].
      rewrite (getitem_raised _ _ _ Hget1). eexists. split; [reflexivity|].
      simpl; tauto. }
  unfold bind at 1, lift at 1.
  destruct (item0 arr1) as [x1|e1] eqn:Hitem1.
  2:{ intros H. injection H as <- <-. split; [reflexivity|right].
      exact (item0_raised _ _ Hitem1). }
  unfold bind at 1, lift at 1.
  destruct (getitem d "backorders") as [arr2|e2] eqn:Hget2.
  2:{ intros H. injection H as <- <-. split; [reflexivity|left].
      rewrite (getitem_raised _ _ _ Hget2). eexists. split; [reflexivity|].
      simpl; tauto. }
  unfold bind at 1, lift at 1.
  destruct (item0 arr2) as [x2|e2] eqn:Hitem2.
  2:{ intros H. injection H as <- <-. split; [reflexivity|right].
      exact (item0_raised _ _ Hitem2). }
  unfold bind at 1, lift at 1.
  destruct (getitem d "incoming_shipments") as [arr3|e3] eqn:Hget3.
  2:{ intros H. injection H as <- <-. split; [reflexivity|left].
      rewrite (getitem_raised _ _ _ Hget3). eexists. split; [reflexivity|].
      simpl; tauto. }
  unfold bind at 1, lift at 1.
  destruct (item0 arr3) as [x3|e3] eqn:Hitem3.
  2:{ intros H. injection H as <- <-. split; [reflexivity|right].
      exact (item0_raised _ _ Hitem3). }
  unfold bind at 1.
  destruct (_estimate_demand d a) as [[v|e4] a4] eqn:Hest.
  - discriminate.
  - intros H. injection H as <- <-.
    destruct (estimate_demand_raised _ _ _ _ Hest) as [-> [->| ->]].
    + split; [reflexivity|left]. eexists. split; [reflexivity|].
      simpl; tauto.
    + split; [reflexivity|now right].
Qed.

Lemma calculate_order_quantity_raised_witness :
  snd (_calculate_order_quantity [("inventory"%string, [10])] factory)
  = factory.
Proof.
  exact (proj1 (calculate_order_quantity_raised
                  [("inventory"%string, [10])] factory factory
                  (KeyError "backorders") eq_refl)).
Defined.



(** ** The histories as sliding windows *)

Lemma run_app (cs1 cs2 : list call) (a : Agent) :
  run a (cs1 ++ cs2) = run (run a cs1) cs2.
Proof.
  revert a. induction cs1 as [|c cs1 IH]; intros a; simpl; [reflexivity|].
  apply IH.
Qed.

Lemma demands_app (cs1 cs2 : list call) :
  demands (cs1 ++ cs2) = (demands cs1 ++ demands cs2)%list.
Proof.
  induction cs1 as [|c cs1 IH]; simpl; [reflexivity|].
  destruct (demand_of c); simpl; now rewrite IH.
Qed.

Lemma orders_placed_app (cs1 cs2 : list call) (a : Agent) :
  orders_placed a (cs1 ++ cs2)
  = (orders_placed a cs1 ++ orders_placed (run a cs1) cs2)%list.
Proof.
  revert a. induction cs1 as [|c cs1 IH]; intros a; simpl; [reflexivity|].
  destruct (demand_of c); [destruct (fst (step c a))|]; simpl;
    now rewrite IH.
Qed.

(** A call with a demand takes the decision on it; any other call leaves
    the state alone. *)
Lemma step_with_demand (c : call) (a : Agent) (d : R) :
  demand_of c = Some d ->
  exists inv bo inc,
    step c a = (Returned (order_for a inv bo d inc), decided a inv bo d inc).
Proof.
  unfold demand_of, terminal, step.
  destruct (c_terminated c || c_truncated c) eqn:Hflag; [discriminate|].
  apply orb_false_elim in Hflag as [-> ->].
  destruct (c_observation c) as [|[|x0 [|x1 [|x2 [|x3 xs]]]]];
    try discriminate.
  intros Hd. injection Hd as <-. exists x0, x1, x3.
  apply choose_action_array.
Qed.

Lemma step_without_demand (c : call) (a : Agent) :
  demand_of c = None ->
  snd (step c a) = a /\ forall q, fst (step c a) = Returned q -> q = 0.
Proof.
  unfold demand_of, terminal, step.
  destruct (c_terminated c || c_truncated c) eqn:Hflag.
  - intros _. rewrite choose_action_terminal by exact Hflag.
    split; [reflexivity|]. intros q Hq. now injection Hq.
  - apply orb_false_elim in Hflag as [-> ->].
    destruct (c_observation c) as [|[|x0 [|x1 [|x2 [|x3 xs]]]]];
      try discriminate; intros _; (split; [reflexivity|discriminate]).
Qed.

Lemma tl_skipn {A : Type} (k : nat) (xs : list A) :
  tl (skipn k xs) = skipn (S k) xs.
Proof.
  revert xs. induction k as [|k IH]; intros [|x xs]; try reflexivity.
  apply IH.
Qed.

(** Appending to a deque that holds the last [maxlen] values of a list
    gives the last [maxlen] values of the list with the value added. *)
Lemma deque_append_lastn (d : deque) (x : R) (h : list R) :
  (0 < maxlen d)%nat ->
  items d = lastn (maxlen d) h ->
  items (deque_append d x) = lastn (maxlen d) (h ++ [x]).
Proof.
  intros Hpos Hitems. unfold deque_append, lastn in *. cbn [items maxlen].
  rewrite Hitems, !length_app, length_skipn. cbn [List.length].
  destruct (Nat.le_gt_cases (maxlen d) (List.length h)) as [Hfull|Hroom].
  - replace (maxlen d <? List.length h - (List.length h - maxlen d) + 1)%nat
      with true by (symmetry; apply Nat.ltb_lt; lia).
    replace (List.length h + 1 - maxlen d)%nat
      with (S (List.length h - maxlen d)) by lia.
    rewrite <- tl_skipn, skipn_app.
    replace (List.length h - maxlen d - List.length h)%nat with 0%nat by lia.
    reflexivity.
  - replace (maxlen d <? List.length h - (List.length h - maxlen d) + 1)%nat
      with false by (symmetry; apply Nat.ltb_ge; lia).
    replace (List.length h - maxlen d)%nat with 0%nat by lia.
    replace (List.length h + 1 - maxlen d)%nat with 0%nat by lia.
    reflexivity.
Qed.

Lemma histories_windows (env : Env) (player_name : option string)
    (a0 : Agent) (cs : list call) :
  __init__ env player_name = Returned a0 ->
  items (demand_history (run a0 cs)) = lastn 8 (demands cs)
  /\ items (last_orders (run a0 cs)) = lastn 4 (orders_placed a0 cs).
Proof.
  intros Hinit.
  destruct (init_fresh _ _ _ Hinit) as (_ & Hhist & Hord & _).
  induction cs as [|c cs [IHd IHo]] using rev_ind.
  - simpl. now rewrite Hhist, Hord.
  - rewrite run_app, demands_app, orders_placed_app. simpl.
    assert (Hinv : histories_bounded (run a0 cs)).
    { apply run_bounded. exact (init_bounded _ _ _ Hinit). }
    destruct Hinv as (Hm1 & Hm2 & _ & _).
    destruct (demand_of c) as [d|] eqn:Hd.
    + destruct (step_with_demand c (run a0 cs) d Hd)
        as (inv & bo & inc & Hstep).
      rewrite Hstep. cbn [fst snd].
      unfold decided, estimated.
      cbn [demand_history last_orders set_last_orders set_avg_demand
             set_demand_history].
      split.
      * rewrite <- Hm1. apply deque_append_lastn; rewrite Hm1; [lia|exact IHd].
      * rewrite <- Hm2. apply deque_append_lastn; rewrite Hm2; [lia|exact IHo].
    + destruct (step_without_demand c (run a0 cs) Hd) as [Hsame _].
      rewrite Hsame, !app_nil_r. now split.
Qed.

(** After any sequence of calls on a new instance, [demand_history] holds
    the last 8 demands that the calls handed over and [last_orders] the
    last 4 orders that they returned, oldest first; terminal calls and
    calls that raise count for nothing. *)
Theorem histories_are_windows (env : Env) (player_name : option string)
    (a0 : Agent) (cs : list call) :
  __init__ env player_name = Returned a0 ->
  items (demand_history (run a0 cs)) = lastn 8 (demands cs)
  /\ items (last_orders (run a0 cs)) = lastn 4 (orders_placed a0 cs).
Proof. apply histories_windows. Qed.

Lemma histories_are_windows_witness :
  items (demand_history
           (run retailer (map (fun d => observe 10 0 d 0 1 2)
                            [1; 2; 3; 4; 5; 6; 7; 8; 9; 10])))
  = lastn 8 (demands (map (fun d => observe 10 0 d 0 1 2)
                        [1; 2; 3; 4; 5; 6; 7; 8; 9; 10])).
Proof.
  exact (proj1 (histories_are_windows chain_env None retailer
                  (map (fun d => observe 10 0 d 0 1 2)
                     [1; 2; 3; 4; 5; 6; 7; 8; 9; 10]) eq_refl)).
Defined.

(** ** The demand estimate over a sequence of calls *)





(** ** The orders on record *)

Lemma deque_append_Forall (P : R -> Prop) (d : deque) (x : R) :
  Forall P (items d) -> P x -> Forall P (items (deque_append d x)).
Proof.
  intros Hd Hx. unfold deque_append. cbn [items].
  assert (Hall : Forall P (items d ++ [x])).
  { apply Forall_app. split; [exact Hd|now constructor]. }
  destruct (maxlen d <? List.length (items d ++ [x]))%nat; [|exact Hall].
  destruct (items d ++ [x])%list; [constructor|].
  now inversion Hall.
Qed.

Lemma total_bounds (c : R) (xs : list R) :
  Forall (fun q => 0 <= q <= c) xs ->
  0 <= Spec.total xs <= INR (List.length xs) * c.
Proof.
  induction 1 as [|x xs Hx Hxs IH].
  - simpl. lra.
  - change (Spec.total (x :: xs)) with (x + Spec.total xs).
    change (List.length (x :: xs)) with (S (List.length xs)).
    rewrite S_INR. lra.
Qed.

(** In every state reached from a new instance whose order ceiling is not
    negative, every order on record in [last_orders] lies between 0 and the
    ceiling, so the sum that the inventory position adds for them lies
    between 0 and 4 times the ceiling. *)
Theorem recorded_orders_in_bounds (env : Env) (player_name : option string)
    (a0 : Agent) (cs : list call) :
  __init__ env player_name = Returned a0 ->
  0 <= action_high a0 ->
  Forall (fun q => 0 <= q <= action_high a0) (items (last_orders (run a0 cs)))
  /\ 0 <= Py.sum (items (last_orders (run a0 cs))) <= 4 * action_high a0.
Proof.
  intros Hinit Hhigh.
  assert (Hall : Forall (fun q => 0 <= q <= action_high a0)
                   (items (last_orders (run a0 cs)))).
  { destruct (init_fresh _ _ _ Hinit) as (_ & _ & Hord & _).
    induction cs as [|c cs IH] using rev_ind.
    - simpl. rewrite Hord. constructor.
    - rewrite run_app. simpl.
      destruct (run_config cs a0) as (_ & Hsame & _).
      destruct (choose_action_cases (run a0 cs) (c_observation c)
                  (c_reward c) (c_terminated c) (c_truncated c) (c_info c)
                  (c_action_mask c))
        as [(r & Hr & _)|(inv & bo & ord & inc & _ & Hr)];
        unfold step; rewrite Hr; cbn [snd]; [exact IH|].
      unfold decided, estimated.
      cbn [last_orders set_last_orders set_avg_demand set_demand_history].
      apply deque_append_Forall; [exact IH|].
      unfold order_for. rewrite bound_action_clamp.
      change (action_high (estimated (run a0 cs) ord))
        with (action_high (run a0 cs)).
      rewrite Hsame. now apply clamp_range. }
  split; [exact Hall|].
  assert (Hinv : histories_bounded (run a0 cs)).
  { apply run_bounded. exact (init_bounded _ _ _ Hinit). }
  destruct Hinv as (_ & _ & _ & Hlen). unfold len in Hlen.
  rewrite py_sum_total.
  destruct (total_bounds _ _ Hall) as [Hlo Hhi].
  split; [exact Hlo|].
  apply le_INR in Hlen.
  replace (INR 4) with 4 in Hlen by (simpl; lra).
  nra.
Qed.

Lemma recorded_orders_in_bounds_witness :
  0 <= Py.sum (items (last_orders
                        (run retailer (repeat (observe 10 0 5 0 1 2) 6))))
  <= 4 * 100.
Proof.
  assert (Hhigh : 0 <= action_high retailer) by (simpl; lra).
  exact (proj2 (recorded_orders_in_bounds chain_env None retailer
                  (repeat (observe 10 0 5 0 1 2) 6) eq_refl Hhigh)).
Defined.

(** ** Constant demand *)








(** ** The order as a function of the stock *)

Lemma py_max_monotone (a x y : R) : x <= y -> Py.max a x <= Py.max a y.
Proof.
  intros Hxy. unfold Py.max.
  destruct (Rlt_dec a x), (Rlt_dec a y); lra.
Qed.

Lemma smooth_bullwhip_monotone (a : Agent) (x y : R) :
  x <= y -> smooth_bullwhip a x <= smooth_bullwhip a y.
Proof.
  intros Hxy. unfold smooth_bullwhip.
  destruct (items (last_orders a)); lra.
Qed.

Lemma adjust_position_monotone (a : Agent) (x y : R) :
  x <= y -> adjust_position a x <= adjust_position a y.
Proof.
  intros Hxy. unfold adjust_position.
  destruct (0 <? position a)%nat; [|exact Hxy].
  assert (Hp := pos_INR (position a)). nra.
Qed.

Lemma bound_action_monotone (a : Agent) (x y : R) :
  x <= y -> bound_action a x <= bound_action a y.
Proof.
  intros Hxy. rewrite !bound_action_clamp. unfold Spec.clamp.
  apply Rle_min_compat_r. apply Rle_max_compat_r. exact Hxy.
Qed.

(** The net stock that the observation reports. *)
Lemma raw_order_for_net (a : Agent) (inv bo ord inc : R) :
  let a1 := estimated a ord in
  let e := Spec.smoothedDemand (smoothing_factor a) (avg_demand a) ord in
  raw_order_for a inv bo ord inc
  = Py.max 0 (e + (target_stock a1 e (demand_std a1 e)
                   - (inv - bo + inc + Py.sum (items (last_orders a))))).
Proof. reflexivity. Qed.

Lemma order_for_antitone (a : Agent) (ord inv1 bo1 inc1 inv2 bo2 inc2 : R) :
  inv1 - bo1 + inc1 <= inv2 - bo2 + inc2 ->
  order_for a inv2 bo2 ord inc2 <= order_for a inv1 bo1 ord inc1.
Proof.
  intros Hnet. unfold order_for.
  apply bound_action_monotone, adjust_position_monotone,
    smooth_bullwhip_monotone.
  rewrite !raw_order_for_net. cbv zeta.
  apply py_max_monotone. lra.
Qed.

(** With the state and the demand fixed, an observation that reports at
    least as much net stock, [inventory - backorders + incoming_shipments],
    never gets a larger order. *)
Theorem more_stock_never_more_order (a : Agent)
    (ord inv1 bo1 inc1 inv2 bo2 inc2 hc bc reward : R)
    (info : pyinfo) (action_mask : pymask) :
  inv1 - bo1 + inc1 <= inv2 - bo2 + inc2 ->
  exists q1 q2,
    fst (choose_action (obs6 inv1 bo1 ord inc1 hc bc) reward false false info
           action_mask a) = Returned q1
    /\ fst (choose_action (obs6 inv2 bo2 ord inc2 hc bc) reward false false
              info action_mask a) = Returned q2
    /\ q2 <= q1.
Proof.
  intros Hnet. unfold obs6. rewrite !choose_action_array.
  eexists _, _. split; [reflexivity|]. split; [reflexivity|].
  now apply order_for_antitone.
Qed.

Lemma more_stock_never_more_order_witness :
  exists q1 q2,
    fst (choose_action (obs6 10 0 5 0 1 2) 0 false false None None retailer)
    = Returned q1
    /\ fst (choose_action (obs6 12 1 5 3 1 2) 0 false false None None
              retailer) = Returned q2
    /\ q2 <= q1.
Proof.
  apply (more_stock_never_more_order retailer 5 10 0 0 12 1 3 1 2 0 None None).
  lra.
Defined.

(** With the state and the demand fixed, only the net stock
    [inventory - backorders + incoming_shipments] of the observation
    matters: two observations with the same net stock get the same order
    and leave the same state. *)
Theorem only_net_stock_matters (a : Agent)
    (ord inv1 bo1 inc1 inv2 bo2 inc2 hc bc reward : R)
    (info : pyinfo) (action_mask : pymask) :
  inv1 - bo1 + inc1 = inv2 - bo2 + inc2 ->
  choose_action (obs6 inv1 bo1 ord inc1 hc bc) reward false false info
    action_mask a
  = choose_action (obs6 inv2 bo2 ord inc2 hc bc) reward false false info
      action_mask a.
Proof.
  intros Hnet. unfold obs6. rewrite !choose_action_array.
  assert (Hq : order_for a inv1 bo1 ord inc1 = order_for a inv2 bo2 ord inc2).
  { apply Rle_antisym; apply order_for_antitone; lra. }
  unfold decided. now rewrite Hq.
Qed.

Lemma only_net_stock_matters_witness :
  choose_action (obs6 10 0 5 0 1 2) 0 false false None None factory
  = choose_action (obs6 7 2 5 5 1 2) 0 false false None None factory.
Proof.
  apply (only_net_stock_matters factory 5 10 0 0 7 2 5 1 2 0 None None).
  lra.
Defined.

(** ** The configuration *)

Lemma order_for_tunables (a : Agent) (ssf tid inv bo ord inc : R) :
  order_for (set_tunables a ssf tid) inv bo ord inc
  = order_for a inv bo ord inc.
Proof. reflexivity. Qed.

(** The attributes [safety_stock_factor] and [target_inventory_days] are
    never read: with other values for them, every call returns what it
    returned and does to the rest of the state what it did. *)
Theorem tunables_never_read (a : Agent) (ssf tid : R) (obs : pyobs)
    (reward : R) (terminated truncated : bool) (info : pyinfo)
    (action_mask : pymask) :
  choose_action obs reward terminated truncated info action_mask
    (set_tunables a ssf tid)
  = (fst (choose_action obs reward terminated truncated info action_mask a),
     set_tunables
       (snd (choose_action obs reward terminated truncated info action_mask
               a)) ssf tid).
Proof.
  destruct (terminated || truncated) eqn:Hflag.
  - now rewrite !choose_action_terminal by exact Hflag.
  - apply orb_false_elim in Hflag as [-> ->].
    destruct obs as [|[|x0 [|x1 [|x2 [|x3 xs]]]]]; try reflexivity.
    now rewrite !choose_action_array.
Qed.

Lemma step_tunables (c : call) (a : Agent) :
  safety_stock_factor (snd (step c a)) = safety_stock_factor a
  /\ target_inventory_days (snd (step c a)) = target_inventory_days a.
Proof.
  unfold step.
  destruct (choose_action_cases a (c_observation c) (c_reward c)
              (c_terminated c) (c_truncated c) (c_info c) (c_action_mask c))
    as [(r & Hr & _)|(inv & bo & ord & inc & _ & Hr)]; rewrite Hr;
    split; reflexivity.
Qed.

(** No call writes the configuration: in every state reached from a new
    instance the position and the order ceiling are those of [__init__],
    the smoothing factor is 0.3, the two unused constants are 1.5 and 14,
    and the lead time is [2 + 1.5 * position], at least 2. *)
Theorem configuration_frozen (env : Env) (player_name : option string)
    (a0 : Agent) (cs : list call) :
  __init__ env player_name = Returned a0 ->
  let a := run a0 cs in
  position a = position a0
  /\ action_high a = action_high a0
  /\ smoothing_factor a = 3 / 10
  /\ safety_stock_factor a = 3 / 2
  /\ target_inventory_days a = 14
  /\ lead_time a = 2 + INR (position a0) * (3 / 2)
  /\ 2 <= lead_time a.
Proof.
  intros Hinit a.
  destruct (init_fresh _ _ _ Hinit) as (_ & _ & _ & Hsf & Hlt).
  destruct (run_config cs a0) as (Hp & Hh & Hsf' & Hlt'). fold a in Hp, Hh, Hsf', Hlt'.
  assert (Htun : safety_stock_factor a = safety_stock_factor a0
                 /\ target_inventory_days a = target_inventory_days a0).
  { unfold a. clear. revert a0.
    induction cs as [|c cs IH]; intros a0; simpl; [now split|].
    destruct (IH (snd (step c a0))) as [H1 H2].
    destruct (step_tunables c a0) as [K1 K2]. split; congruence. }
  assert (Hinit0 : safety_stock_factor a0 = 3 / 2
                   /\ target_inventory_days a0 = 14).
  { rewrite init_player in Hinit.
    destruct (player_of env player_name) as [n|]; [|discriminate].
    destruct (Py.index (possible_agents env) n); [|discriminate].
    injection Hinit as <-. now split. }
  destruct Htun as [Ht1 Ht2]. destruct Hinit0 as [Hi1 Hi2].
  repeat split; try congruence.
  rewrite Hlt', Hlt. assert (Hpos := pos_INR (position a0)). lra.
Qed.

Lemma configuration_frozen_witness :
  lead_time (run factory (repeat (observe 10 0 5 0 1 2) 3))
  = 2 + INR (position factory) * (3 / 2).
Proof.
  exact (proj1 (proj2 (proj2 (proj2 (proj2 (proj2
           (configuration_frozen chain_env (Some "factory"%string) factory
              (repeat (observe 10 0 5 0 1 2) 3) eq_refl))))))).
Defined.

(** ** The trading environment *)

Section ForexFacts.

Import ForexMinuteEnv.


Lemma is_position_type_cases (z : Z) :
  is_position_type z = true <-> z = 0%Z \/ z = 1%Z \/ z = 2%Z.
Proof.
  unfold is_position_type. rewrite andb_true_iff, !Z.leb_le. lia.
Qed.

Lemma calculate_reward_closed (e : env) (action : Z) (price : R) :
  list_item (closes e) (t e) = Returned price ->
  _calculate_reward action e
  = if trades e action
    then (Returned (match ForexMinuteRenderer.current_pnl (position_at e price) with
                    | Some pnl => pnl
                    | None => 0
                    end),
          set_position_value (set_position_type e action)
            (if (action =? 1)%Z then 0 else price))
    else (Returned 0, e).
Proof.
  intros Hprice. destruct e as [cl ts tm ii hl tt pt pv].
  cbn [closes t] in Hprice.
  unfold trades, position_at, ForexMinuteRenderer.current_pnl,
    _calculate_reward, bindE, getE, putE, retE, close_at_t,
    set_position_value, set_position_type.
  cbn [position_type position_value closes t timestamps tmax initial_info history_length
       r_position_type r_position_value r_current_price].
  destruct (Z.eqb_spec action 0) as [->|Ha0];
    [|destruct (Z.eqb_spec action 1) as [->|Ha1];
      [|destruct (Z.eqb_spec action 2) as [->|Ha2]]].
  4:{ replace (is_position_type action) with false; [reflexivity|].
      symmetry. apply not_true_is_false. rewrite is_position_type_cases. lia. }
  all: destruct (Z.eqb_spec pt 0) as [->|Hp0];
    [|destruct (Z.eqb_spec pt 1) as [->|Hp1];
      [|destruct (Z.eqb_spec pt 2) as [->|Hp2]]];
    simpl; rewrite ?Hprice; simpl; try reflexivity.
  all: replace (is_position_type pt) with false
         by (symmetry; apply not_true_is_false;
             rewrite is_position_type_cases; lia);
       reflexivity.
Qed.


Lemma calculate_reward_traded (e : env) (action : Z) (price : R) :
  list_item (closes e) (t e) = Returned price ->
  _calculate_reward action e
  = (Returned (reward_for e action price), traded e action price).
Proof.
  intros Hprice. rewrite (calculate_reward_closed e action price Hprice).
  unfold reward_for, traded. now destruct (trades e action).
Qed.

Lemma traded_frame (e : env) (action : Z) (price : R) :
  closes (traded e action price) = closes e
  /\ timestamps (traded e action price) = timestamps e
  /\ tmax (traded e action price) = tmax e
  /\ initial_info (traded e action price) = initial_info e
  /\ history_length (traded e action price) = history_length e
  /\ t (traded e action price) = t e.
Proof. unfold traded. destruct (trades e action); repeat split. Qed.

Lemma step_closed (e : env) (action : Z) (price price' : R) (stamp : Z) :
  list_item (closes e) (t e) = Returned price ->
  list_item (closes e) (t e + 1) = Returned price' ->
  list_item (timestamps e) (t e + 1) = Returned stamp ->
  let e1 := traded e action price in
  let done := (tmax e - 1 <=? t e + 1)%nat in
  step action e
  = (Returned
       (mk_step_result [IZR (position_type e1); position_value e1; price']
          (reward_for e action price) done false
          (if done
           then Some (mk_info stamp (position_type e1) (position_value e1))
           else None)),
     set_t e1 (t e + 1)).
Proof.
  intros Hprice Hnext Hstamp e1 done.
  destruct (traded_frame e action price)
    as (Hc & Hts & Htm & _ & _ & Ht). fold e1 in Hc, Hts, Htm, Ht.
  unfold step. unfold bindE at 1.
  rewrite (calculate_reward_traded e action price Hprice). fold e1.
  unfold bindE, getE, putE, retE, close_at_t, _get_info.
  cbn [t closes tmax timestamps set_t position_type position_value].
  rewrite Hc, Ht, Htm, Hnext. fold done.
  destruct done.
  - unfold bindE, getE.
    cbn [t closes tmax timestamps set_t position_type position_value].
    rewrite Hts, Hstamp. reflexivity.
  - reflexivity.
Qed.

Lemma list_item_lt {A : Type} (xs : list A) (i : nat) :
  (i < List.length xs)%nat -> exists x, list_item xs i = Returned x.
Proof.
  intros Hi. unfold list_item.
  destruct (nth_error xs i) as [x|] eqn:Hx; [eauto|].
  apply nth_error_None in Hx. lia.
Qed.


Lemma calculate_reward_frame (e : env) (action : Z) :
  let e1 := snd (_calculate_reward action e) in
  closes e1 = closes e /\ timestamps e1 = timestamps e /\ tmax e1 = tmax e
  /\ initial_info e1 = initial_info e
  /\ history_length e1 = history_length e /\ t e1 = t e.
Proof.
  destruct (list_item (closes e) (t e)) as [price|x] eqn:Hprice.
  - rewrite (calculate_reward_traded e action price Hprice).
    apply traded_frame.
  - destruct e as [cl ts tm ii hl tt pt pv]. cbn [closes t] in Hprice.
    unfold _calculate_reward, bindE, getE, putE, retE, close_at_t,
      set_position_value, set_position_type.
    cbn [position_type position_value closes t timestamps tmax initial_info
         history_length].
    destruct (action =? 0)%Z; [|destruct (action =? 1)%Z;
                                 [|destruct (action =? 2)%Z]];
      destruct (pt =? 1)%Z, (pt =? 2)%Z, (pt =? 0)%Z;
      cbn; rewrite ?Hprice; cbn; repeat split.
Qed.




Lemma advance_spec (rest : list Z) (stamp : Z) (i0 : nat) :
  let k := advance rest stamp i0 in
  (i0 <= k <= i0 + List.length rest)%nat
  /\ (forall j ts, (j < k - i0)%nat -> nth_error rest j = Some ts ->
        (ts < stamp)%Z)
  /\ (forall ts, nth_error rest (k - i0) = Some ts -> (stamp <= ts)%Z).
Proof.
  revert i0. induction rest as [|x rest IH]; intros i0; simpl.
  - split; [lia|]. split.
    + intros j ts Hj. lia.
    + intros ts. rewrite Nat.sub_diag. discriminate.
  - destruct (Z.ltb_spec x stamp) as [Hlt|Hge].
    + destruct (IH (S i0)) as (Hk & Hbefore & Hat).
      split; [lia|]. split.
      * intros [|j] ts Hj Hts; simpl in Hts.
        -- now injection Hts as <-.
        -- apply (Hbefore j); [lia|exact Hts].
      * intros ts.
        replace (advance rest stamp (S i0) - i0)%nat
          with (S (advance rest stamp (S i0) - S i0)) by lia.
        simpl. apply Hat.
    + split; [lia|]. split.
      * intros j ts Hj. lia.
      * intros ts. rewrite Nat.sub_diag. simpl.
        intros Hts. injection Hts as <-. exact Hge.
Qed.

(** [_process_initial_info] resolves the timestamp of [initial_info] to the
    index of the first timestamp of the data that is not earlier, or to the
    number of timestamps when all are earlier: every timestamp before the
    index is earlier, the one at the index is not; position type and value
    are taken over. *)
Theorem process_initial_info_first (stamps : list Z) (initial : info Z) :
  let resolved := _process_initial_info stamps initial in
  (i_time resolved <= List.length stamps)%nat
  /\ (forall j ts, (j < i_time resolved)%nat -> nth_error stamps j = Some ts ->
        (ts < i_time initial)%Z)
  /\ (forall ts, nth_error stamps (i_time resolved) = Some ts ->
        (i_time initial <= ts)%Z)
  /\ i_position_type resolved = i_position_type initial
  /\ i_position_value resolved = i_position_value initial.
Proof.
  intros resolved. unfold resolved, _process_initial_info. cbn [i_time
    i_position_type i_position_value].
  destruct (advance_spec stamps (i_time initial) 0) as (Hk & Hbefore & Hat).
  rewrite Nat.sub_0_r in Hbefore, Hat.
  repeat split; try assumption. lia.
Qed.

(** With a price for the current time, [_calculate_reward] returns.  When
    the action is one of 0, 1, 2, the position is one of 0, 1, 2 and the
    two differ, the position becomes the action, its value the current
    price (0 for action 1), the reward is the profit that the renderer
    shows for the position left (0 when none was open), and the new
    position shows no profit at that price; in every other case nothing
    changes and the reward is 0.  The position stays one of 0, 1, 2. *)
Theorem calculate_reward_trade (e : env) (action : Z) (price : R) :
  list_item (closes e) (t e) = Returned price ->
  exists r e',
    _calculate_reward action e = (Returned r, e')
    /\ (if trades e action
        then position_type e' = action
             /\ position_value e' = (if (action =? 1)%Z then 0 else price)
             /\ r = match ForexMinuteRenderer.current_pnl (position_at e price)
                    with
                    | Some pnl => pnl
                    | None => 0
                    end
             /\ match ForexMinuteRenderer.current_pnl (position_at e' price)
                with
                | Some pnl => pnl = 0
                | None => action = 1%Z
                end
        else e' = e /\ r = 0)
    /\ (is_position_type (position_type e) = true ->
        is_position_type (position_type e') = true).
Proof.
  intros Hprice. eexists _, _.
  split; [exact (calculate_reward_traded e action price Hprice)|].
  unfold traded, reward_for.
  destruct (trades e action) eqn:Htr.
  - unfold trades in Htr.
    apply andb_prop in Htr as [Htr Hne]. apply andb_prop in Htr as [Ha Hp].
    apply is_position_type_cases in Ha.
    cbn [position_type position_value set_position_value set_position_type].
    split; [|intros _; now apply is_position_type_cases].
    repeat split.
    unfold ForexMinuteRenderer.current_pnl, position_at.
    cbn [r_position_type r_position_value r_current_price
         position_type position_value set_position_value set_position_type].
    destruct Ha as [->|[->| ->]]; simpl; try reflexivity; lra.
  - split; [now split|]. intros H; exact H.
Qed.

Lemma traded_well_formed (e : env) (action : Z) (price : R) (n : nat) :
  well_formed e -> well_formed (set_t (traded e action price) n).
Proof.
  unfold well_formed.
  destruct (traded_frame e action price) as (Hc & Hts & Htm & _).
  cbn [tmax closes timestamps set_t]. now rewrite Hc, Hts, Htm.
Qed.

(** While there is a price after the current one, [step] returns: [t]
    goes up by one, the observation is the position type, the position
    value and the next price, [done] says whether the new [t] has reached
    [tmax - 1], [truncated] is false, the info is empty exactly when [done]
    is false, and the prices are untouched. *)
Theorem step_advances (e : env) (action : Z) :
  well_formed e ->
  (t e + 1 < List.length (closes e))%nat ->
  exists r e' price',
    step action e = (Returned r, e')
    /\ t e' = (t e + 1)%nat
    /\ nth_error (closes e) (t e + 1) = Some price'
    /\ observation r = [IZR (position_type e'); position_value e'; price']
    /\ done r = (tmax e - 1 <=? t e + 1)%nat
    /\ truncated r = false
    /\ (step_info r = None <-> done r = false)
    /\ closes e' = closes e
    /\ well_formed e'.
Proof.
  intros Hwf Hnext.
  destruct (list_item_lt (closes e) (t e) ltac:(lia)) as [price Hprice].
  destruct (list_item_lt (closes e) (t e + 1) Hnext) as [price' Hprice'].
  destruct (list_item_lt (timestamps e) (t e + 1)) as [stamp Hstamp].
  { destruct Hwf as [_ Hlen]. lia. }
  eexists _, _, price'.
  split; [exact (step_closed e action price price' stamp Hprice Hprice'
                   Hstamp)|].
  cbn [t set_t observation done truncated step_info position_type
         position_value closes].
  split; [reflexivity|]. split.
  { unfold list_item in Hprice'.
    destruct (nth_error (closes e) (t e + 1)); [|discriminate].
    now injection Hprice' as ->. }
  split; [reflexivity|]. split; [reflexivity|]. split; [reflexivity|].
  split; [destruct (tmax e - 1 <=? t e + 1)%nat; split; congruence|].
  split; [apply traded_frame|]. now apply traded_well_formed.
Qed.


Lemma reset_closed (e : env) :
  reset e
  = (match list_item (closes e) (i_time (initial_info e)) with
     | Returned price =>
         Returned ([IZR (i_position_type (initial_info e));
                    i_position_value (initial_info e); price], None)
     | Raised x => Raised x
     end, started e).
Proof.
  unfold reset, started, bindE, getE, putE, retE, close_at_t, _get_info.
  cbn [t closes initial_info set_t set_position_type set_position_value
         position_type position_value].
  destruct (list_item (closes e) (i_time (initial_info e))); reflexivity.
Qed.


Lemma started_series (e1 e2 : env) :
  series e1 = series e2 -> started e1 = started e2.
Proof.
  unfold series, started, set_position_value, set_position_type, set_t.
  cbn [closes timestamps tmax initial_info history_length t position_type
         position_value].
  intros H. injection H as -> -> -> -> ->. reflexivity.
Qed.

Lemma step_series (e : env) (action : Z) :
  series (snd (step action e)) = series e.
Proof.
  assert (Hframe := calculate_reward_frame e action).
  unfold step. unfold bindE at 1.
  destruct (_calculate_reward action e) as [[r|x] e1].
  - cbn [snd] in Hframe. destruct Hframe as (Hc & Hts & Htm & Hii & Hhl & _).
    unfold bindE, getE, putE, retE, close_at_t, _get_info.
    cbn [t closes tmax timestamps set_t].
    assert (Hs : series (set_t e1 (t e1 + 1)) = series e).
    { unfold series. cbn [closes timestamps tmax initial_info history_length
                            set_t]. now rewrite Hc, Hts, Htm, Hii, Hhl. }
    destruct (list_item (closes e1) (t e1 + 1)); [|exact Hs].
    destruct (tmax e1 - 1 <=? t e1 + 1)%nat; [|exact Hs].
    unfold bindE, getE. cbn [t timestamps set_t].
    destruct (list_item (timestamps e1) (t e1 + 1)); exact Hs.
  - cbn [snd] in Hframe. destruct Hframe as (Hc & Hts & Htm & Hii & Hhl & _).
    unfold series. cbn [snd]. now rewrite Hc, Hts, Htm, Hii, Hhl.
Qed.

Lemma play_series (actions : list Z) (e : env) :
  series (snd (play actions e)) = series e.
Proof.
  revert e. induction actions as [|action rest IH]; intros e; [reflexivity|].
  simpl. unfold bindE at 1.
  assert (Hstep := step_series e action).
  destruct (step action e) as [[r|x] e1]; cbn [snd] in Hstep; [|exact Hstep].
  unfold bindE at 1. specialize (IH e1).
  destruct (play rest e1) as [[rs|x] e2]; unfold retE; cbn [snd] in IH |- *;
    congruence.
Qed.

Lemma reset_raises (e : env) :
  fst (reset e) = Raised IndexError <->
  (List.length (closes e) <= i_time (initial_info e))%nat.
Proof.
  rewrite reset_closed. cbn [fst]. unfold list_item.
  destruct (nth_error (closes e) (i_time (initial_info e))) eqn:Hn.
  - split; [discriminate|]. intros Hlen.
    apply nth_error_None in Hlen. congruence.
  - split; [|reflexivity]. intros _. now apply nth_error_None.
Qed.

(** [reset] undoes whatever the steps did: after any sequence of steps it
    returns what it returns at once and leaves the same state, the one of
    [initial_info].  It raises [IndexError] exactly when the initial index
    is not below the number of prices, and otherwise returns the initial
    position type, the initial position value and the price at the initial
    index, with an empty info. *)
Theorem reset_restores (e : env) (actions : list Z) :
  reset (snd (play actions e)) = reset e
  /\ snd (reset e) = started e
  /\ (fst (reset e) = Raised IndexError <->
      (List.length (closes e) <= i_time (initial_info e))%nat)
  /\ (forall price,
        nth_error (closes e) (i_time (initial_info e)) = Some price ->
        fst (reset e)
        = Returned ([IZR (i_position_type (initial_info e));
                     i_position_value (initial_info e); price], None)).
Proof.
  assert (Hs := play_series actions e).
  rewrite !reset_closed. split; [|split; [reflexivity|split]].
  - rewrite (started_series _ _ Hs).
    unfold series in Hs. injection Hs as -> _ _ -> _. reflexivity.
  - rewrite <- reset_raises, reset_closed. reflexivity.
  - intros price Hprice. cbn [fst]. unfold list_item. now rewrite Hprice.
Qed.

Lemma advance_all (rest : list Z) (stamp : Z) (i0 : nat) :
  Forall (fun ts => (ts < stamp)%Z) rest <->
  advance rest stamp i0 = (i0 + List.length rest)%nat.
Proof.
  revert i0. induction rest as [|x rest IH]; intros i0; simpl.
  - split; [intros _; lia|constructor].
  - destruct (Z.ltb_spec x stamp) as [Hlt|Hge].
    + rewrite <- Nat.add_succ_comm, <- IH. split.
      * intros H. now inversion H.
      * intros H. now constructor.
    + split.
      * intros H. inversion H. lia.
      * intros H. lia.
Qed.

(** On data that is not empty, [reset] after [__init__] without
    [initial_info] returns the observation [1, 0, price] for the price at
    index [min 120 (len data - 1)]; with an [initial_info] it raises
    [IndexError] exactly when every timestamp of the data is earlier than
    the one of [initial_info]. *)
Theorem reset_after_init (data : list (Z * R)) (history : Z) :
  data <> [] ->
  (exists price,
      nth_error (map snd data) (Nat.min 120 (List.length data - 1))
      = Some price
      /\ fst (reset (__init__ data None history))
         = Returned ([1; 0; price], None))
  /\ (forall initial,
        fst (reset (__init__ data (Some initial) history))
        = Raised IndexError
        <-> Forall (fun row => (fst row < i_time initial)%Z) data).
Proof.
  intros Hne. split.
  - destruct (nth_error (map snd data) (Nat.min 120 (List.length data - 1)))
      as [price|] eqn:Hprice.
    + exists price. split; [reflexivity|].
      rewrite reset_closed. cbn [fst]. unfold __init__.
      cbn [closes initial_info i_time i_position_type i_position_value].
      unfold list_item. rewrite length_map, Hprice. reflexivity.
    + apply nth_error_None in Hprice. rewrite length_map in Hprice.
      destruct data; [contradiction|]. cbn [List.length] in Hprice. lia.
  - intros initial.
    rewrite reset_raises. unfold __init__, _process_initial_info.
    cbn [closes initial_info i_time]. rewrite length_map.
    rewrite <- Forall_map with (f := fst) (P := fun ts => (ts < i_time initial)%Z).
    rewrite (advance_all (map fst data) (i_time initial) 0).
    destruct (advance_spec (map fst data) (i_time initial) 0) as (Hk & _).
    rewrite length_map in *. lia.
Qed.

Lemma play_app (xs ys : list Z) (e : env) :
  play (xs ++ ys) e
  = match play xs e with
    | (Returned rs, e1) =>
        match play ys e1 with
        | (Returned rs', e2) => (Returned (rs ++ rs')%list, e2)
        | (Raised x, e2) => (Raised x, e2)
        end
    | (Raised x, e1) => (Raised x, e1)
    end.
Proof.
  revert e. induction xs as [|a xs IH]; intros e.
  - simpl. unfold retE. now destruct (play ys e) as [[rs'|x] e2].
  - simpl. unfold bindE at 1 3.
    destruct (step a e) as [[r|x] e1]; [|reflexivity].
    unfold bindE at 1 2. rewrite IH.
    destruct (play xs e1) as [[rs|x] e2]; [|reflexivity].
    unfold retE.
    destruct (play ys e2) as [[rs'|x] e3]; reflexivity.
Qed.

Lemma step_returned (e : env) (action : Z) (price : R) :
  well_formed e ->
  (t e + 1 < List.length (closes e))%nat ->
  nth_error (closes e) (t e) = Some price ->
  exists r,
    step action e = (Returned r, set_t (traded e action price) (t e + 1))
    /\ reward r = reward_for e action price.
Proof.
  intros Hwf Hnext Hprice.
  assert (Hp : list_item (closes e) (t e) = Returned price).
  { unfold list_item. now rewrite Hprice. }
  destruct (list_item_lt (closes e) (t e + 1) Hnext) as [price' Hprice'].
  destruct (list_item_lt (timestamps e) (t e + 1)) as [stamp Hstamp].
  { destruct Hwf as [_ Hlen]. lia. }
  eexists. split; [exact (step_closed e action price price' stamp Hp Hprice'
                            Hstamp)|reflexivity].
Qed.

(** Repeating the action of the position held trades nothing. *)
Lemma play_same (k : nat) (e : env) :
  well_formed e ->
  (t e + k < List.length (closes e))%nat ->
  exists rs,
    play (repeat (position_type e) k) e = (Returned rs, set_t e (t e + k))
    /\ map reward rs = repeat 0 k.
Proof.
  revert e. induction k as [|k IH]; intros e Hwf Hlen.
  - exists []. split; [|reflexivity]. simpl. unfold retE.
    rewrite Nat.add_0_r. now destruct e.
  - destruct (list_item_lt (closes e) (t e) ltac:(lia)) as [price Hprice].
    assert (Hn : nth_error (closes e) (t e) = Some price).
    { unfold list_item in Hprice.
      destruct (nth_error (closes e) (t e)); [|discriminate].
      now injection Hprice as ->. }
    destruct (step_returned e (position_type e) price Hwf ltac:(lia) Hn)
      as (r & Hstep & Hr).
    assert (Hno : trades e (position_type e) = false).
    { unfold trades. rewrite Z.eqb_refl. simpl. apply andb_false_r. }
    unfold traded in Hstep. unfold reward_for in Hr. rewrite Hno in Hstep, Hr.
    destruct (IH (set_t e (t e + 1))) as (rs & Hplay & Hrs).
    { exact Hwf. }
    { cbn [t closes set_t]. lia. }
    exists (r :: rs). cbn [t closes set_t position_type] in Hplay.
    split.
    + cbn [repeat play]. unfold bindE at 1. rewrite Hstep.
      unfold bindE at 1. rewrite Hplay. unfold retE.
      f_equal. unfold set_t. cbn. f_equal. lia.
    + simpl. now rewrite Hr, Hrs.
Qed.

(** A round trip: from no position, opening with action 2 (or 0),
    repeating that action [k] times and closing with action 1 gives the
    rewards 0, ..., 0 and then the closing price minus the opening price
    (the opening price minus the closing price for action 0), and ends
    with no position, position value 0, [k + 2] steps later. *)
Theorem round_trip (e : env) (opening : Z) (k : nat) (p_open p_close : R) :
  well_formed e ->
  position_type e = 1%Z ->
  opening = 0%Z \/ opening = 2%Z ->
  (t e + k + 2 < List.length (closes e))%nat ->
  nth_error (closes e) (t e) = Some p_open ->
  nth_error (closes e) (t e + k + 1) = Some p_close ->
  exists rs e',
    play (opening :: repeat opening k ++ [1%Z]) e = (Returned rs, e')
    /\ map reward rs
       = (repeat 0 (S k)
          ++ [if (opening =? 2)%Z then p_close - p_open
              else p_open - p_close])%list
    /\ position_type e' = 1%Z
    /\ position_value e' = 0
    /\ t e' = (t e + k + 2)%nat.
Proof.
  intros Hwf Hflat Hopening Hlen Hopen Hclose.
  destruct e as [cl ts tm ii hl tt pt pv].
  cbn [position_type closes t] in Hflat, Hlen, Hopen, Hclose. subst pt.
  set (e := mk_env cl ts tm ii hl tt 1 pv) in *.
  destruct (step_returned e opening p_open Hwf ltac:(cbn; lia) Hopen)
    as (r1 & Hstep1 & Hr1).
  assert (Htr1 : trades e opening = true) by (destruct Hopening; now subst).
  assert (Hne1 : (opening =? 1)%Z = false) by (destruct Hopening; now subst).
  unfold traded in Hstep1. unfold reward_for in Hr1.
  rewrite Htr1 in Hstep1, Hr1. rewrite Hne1 in Hstep1.
  set (e1 := mk_env cl ts tm ii hl (tt + 1) opening p_open) in *.
  change (set_t (set_position_value (set_position_type e opening) p_open)
            (t e + 1)) with e1 in Hstep1.
  destruct (play_same k e1 Hwf ltac:(cbn; lia)) as (rs & Hplay & Hrs).
  set (e2 := mk_env cl ts tm ii hl (tt + 1 + k) opening p_open) in *.
  change (position_type e1) with opening in Hplay.
  change (set_t e1 (t e1 + k)) with e2 in Hplay.
  assert (Hclose2 : nth_error (closes e2) (t e2) = Some p_close).
  { cbn [e2 closes t]. now rewrite <- (Nat.add_assoc tt 1 k),
      (Nat.add_comm 1 k), Nat.add_assoc. }
  destruct (step_returned e2 1 p_close Hwf ltac:(cbn; lia) Hclose2)
    as (r3 & Hstep3 & Hr3).
  assert (Htr3 : trades e2 1 = true) by (destruct Hopening; now subst).
  unfold traded in Hstep3. unfold reward_for in Hr3.
  rewrite Htr3 in Hstep3, Hr3.
  eexists _, _. split; [|split].
  - cbn [play]. unfold bindE at 1. rewrite Hstep1.
    unfold bindE at 1. rewrite play_app, Hplay.
    cbn [play]. unfold bindE at 1. rewrite Hstep3.
    unfold bindE, retE. reflexivity.
  - cbn [map]. rewrite map_app. cbn [map]. rewrite Hrs, Hr1, Hr3.
    cbn [repeat app].
    unfold ForexMinuteRenderer.current_pnl, position_at.
    cbn [r_position_type r_position_value r_current_price position_type
           position_value e e2].
    destruct Hopening; subst opening; reflexivity.
  - cbn [position_type position_value t set_t set_position_value
           set_position_type e2 Z.eqb Pos.eqb].
    repeat split. unfold e2, e. cbn [t]. lia.
Qed.



Lemma calculate_reward_trade_witness :
  exists r e',
    _calculate_reward 1 (set_position_value (set_position_type minutes 2) 9)
    = (Returned r, e')
    /\ r = 10 - 9.
Proof.
  destruct (calculate_reward_trade
              (set_position_value (set_position_type minutes 2) 9) 1 10
              eq_refl) as (r & e' & Hcall & Htrade & _).
  exists r, e'. split; [exact Hcall|].
  cbn in Htrade. destruct Htrade as (_ & _ & Hr & _). exact Hr.
Defined.

Lemma step_advances_witness :
  exists r e' price',
    step 2 minutes = (Returned r, e') /\ t e' = 1%nat
    /\ nth_error (closes minutes) 1 = Some price'.
Proof.
  assert (Hwf : well_formed minutes) by (split; reflexivity).
  assert (Hnext : (t minutes + 1 < List.length (closes minutes))%nat)
    by (cbn; lia).
  destruct (step_advances minutes 2 Hwf Hnext)
    as (r & e' & price' & Hstep & Ht & Hprice & _).
  exists r, e', price'. repeat split; assumption.
Defined.


Lemma reset_restores_witness :
  reset (snd (play [2; 2; 1]%Z minutes)) = reset minutes.
Proof. exact (proj1 (reset_restores minutes [2; 2; 1]%Z)). Defined.

Lemma reset_after_init_witness :
  exists price,
    nth_error (map snd [(0%Z, 10); (60%Z, 11)]) (Nat.min 120 (2 - 1))
    = Some price
    /\ fst (reset (__init__ [(0%Z, 10); (60%Z, 11)] None 100))
       = Returned ([1; 0; price], None).
Proof.
  refine (proj1 (reset_after_init [(0%Z, 10); (60%Z, 11)] 100 _)).
  discriminate.
Defined.

Lemma round_trip_witness :
  exists rs e',
    play [2; 2; 1]%Z minutes = (Returned rs, e')
    /\ map reward rs = [0; 0; 13 - 10].
Proof.
  assert (Hwf : well_formed minutes) by (split; reflexivity).
  assert (Hlen : (t minutes + 1 + 2 < List.length (closes minutes))%nat)
    by (cbn; lia).
  destruct (round_trip minutes 2 1 10 13 Hwf eq_refl (or_intror eq_refl)
              Hlen eq_refl eq_refl) as (rs & e' & Hplay & Hrs & _).
  exists rs, e'. split; [exact Hplay|exact Hrs].
Defined.


End ForexFacts.
